(** * Explore plugin: the tool explorer content view

    A shallow embedding of [ToolExplorerContent.tsx]: the two filter
    selections kept in step with the URL query, the two asynchronous loaders
    created with [useAsyncFn], the options derived from the unfiltered tool
    list, and the status part of the rendered output.

    Conventions used throughout.
    - A JavaScript value that may be [undefined] or [null] is an [option];
      [x ?? d] is [default d x] and [x?.f] is a bind on the option.
    - Strings are well-formed text; query values are compared as
      [URLSearchParams] hands them back, after decoding.
    - A rejection reason is an [Error] object, as the type of [useAsyncFn]'s
      state has it, hence always truthy. *)

From stdpp Require Import base option list sets strings.

#[local] Set Warnings "-clear-no-such-hyp".

Open Scope string_scope.
Open Scope list_scope.

(** ** Data model *)

(** Modelled from the spec: the [ExploreTool] type of
    [@backstage-community/plugin-explore-common], whose declaration is not
    among the sources: title, description and url, an optional image, an
    optional sequence of tags and an optional single lifecycle. *)
Record ExploreTool := {
  title : string;
  description : string;
  url : string;
  image : option string;
  tags : option (list string);
  lifecycle : option string
}.

(** Modelled from the spec: the request and response types of the catalog
    client, [getTools(filter?: {tags?, lifecycle?}) -> {tools}]. The filter
    sits under the [filter] field of the request, as the component and its
    test build and read it. The [tools] field is optional here because the
    component guards against its absence. *)
Module Request.
Record Filter := {
  tags : option (list string);
  lifecycle : option (list string)
}.
Record t := { filter : option Filter }.
End Request.

Module Response.
Record t := { tools : option (list ExploreTool) }.
End Response.

Definition GetExploreToolsRequest : Type := Request.t.
Definition GetExploreToolsResponse : Type := Response.t.

(** A JavaScript [Error] object. *)
Record Error := { message : string }.

(** ** Promises and async functions *)

(** How a promise settles. *)
Inductive Settled (A : Type) : Type :=
| Fulfilled (a : A)
| Rejected (e : Error).
Arguments Fulfilled {A} a.
Arguments Rejected {A} e.

(** The body of an async function whose only effect is calling
    [exploreApi.getTools]: it returns, throws, or hands a request to the
    client and continues with the way the returned promise settled. *)
Inductive Async (A : Type) : Type :=
| Return (a : A)
| Throw (e : Error)
| GetTools (request : option GetExploreToolsRequest)
           (k : Settled (option GetExploreToolsResponse) -> Async A).
Arguments Return {A} a.
Arguments Throw {A} e.
Arguments GetTools {A} request k.

(** [await exploreApi.getTools(request)] outside any [try]: a rejection is
    rethrown and leaves the function. *)
Definition await_getTools {A} (request : option GetExploreToolsRequest)
    (k : option GetExploreToolsResponse -> Async A) : Async A :=
  GetTools request (fun s =>
    match s with
    | Fulfilled response => k response
    | Rejected e => Throw e
    end).

(** The catalog client: what [getTools] answers to each request. *)
Definition ExploreApi : Type :=
  option GetExploreToolsRequest -> Settled (option GetExploreToolsResponse).

(** Running an async function against a client: the requests it issued, in
    order, and how its promise settles. *)
Fixpoint run {A} (api : ExploreApi) (m : Async A)
    : list (option GetExploreToolsRequest) * Settled A :=
  match m with
  | Return a => ([], Fulfilled a)
  | Throw e => ([], Rejected e)
  | GetTools request k =>
      let '(calls, r) := run api (k (api request)) in
      (request :: calls, r)
  end.

Definition requests_of {A} (api : ExploreApi) (m : Async A)
    : list (option GetExploreToolsRequest) := (run api m).1.

Definition result_of {A} (api : ExploreApi) (m : Async A) : Settled A :=
  (run api m).2.

(** ** URL query and history (react-router) *)

Module URL.

(** [URLSearchParams]: the name/value pairs of the query, in order. *)
Abbreviation URLSearchParams := (list (string * string)).

(** [searchParams.getAll(name)] *)
Fixpoint getAll (name : string) (q : URLSearchParams) : list string :=
  match q with
  | [] => []
  | (k, v) :: q' =>
      if decide (k = name) then v :: getAll name q' else getAll name q'
  end.

(** [searchParams.has(name)] *)
Definition has (name : string) (q : URLSearchParams) : bool :=
  bool_decide (name ∈ q.*1).

(** A value of the object form of [URLSearchParamsInit]. *)
Inductive ParamValue : Type :=
| Single (v : string)
| Multi (vs : list string).

(** [createSearchParams(init)] for an object [init], given as its own
    enumerable keys in order: each array value is spread into one pair per
    element, each string value gives one pair. *)
Definition createSearchParams (init : list (string * ParamValue))
    : URLSearchParams :=
  foldl (fun memo '(key, value) =>
           memo ++ match value with
                   | Multi vs => (fun v => (key, v)) <$> vs
                   | Single v => [(key, v)]
                   end) [] init.

(** The session history around the current entry; only the query part of
    each entry is kept. *)
Record History := {
  back : list URLSearchParams;
  location : URLSearchParams;
  forward : list URLSearchParams
}.

Record NavigateOptions := { replace : bool }.

(** [navigate("?" + query, options)] *)
Definition navigate (query : URLSearchParams) (options : NavigateOptions)
    (h : History) : History :=
  if replace options
  then {| back := back h; location := query; forward := forward h |}
  else {| back := location h :: back h; location := query; forward := [] |}.

(** The setter returned by [useSearchParams], called with an object. *)
Definition setSearchParams (nextInit : list (string * ParamValue))
    (options : NavigateOptions) (h : History) : History :=
  navigate (createSearchParams nextInit) options h.

(** Number of entries of the session history. *)
Definition entries (h : History) : nat :=
  length (back h) + 1 + length (forward h).

End URL.

(** ** [useAsyncFn] (react-use) *)

Module AsyncFn.

(** The state the hook exposes: [{ loading, error?, value? }]. *)
Record AsyncState (V : Type) := {
  loading : bool;
  error : option Error;
  value : option V
}.
Arguments loading {V} _.
Arguments error {V} _.
Arguments value {V} _.

(** The hook: its state and the [lastCallId] ref. *)
Record t (V : Type) := {
  state : AsyncState V;
  lastCallId : nat
}.
Arguments state {V} _.
Arguments lastCallId {V} _.

(** [initialState = { loading: false }] *)
Definition init {V} : t V :=
  {| state := {| loading := false; error := None; value := None |};
     lastCallId := 0 |}.

(** Calling the callback: [callId = ++lastCallId.current], and
    [set(prev => ({ ...prev, loading: true }))] unless already loading.
    Returns the hook and the id of this call. The state the callback closes
    over is taken to be the current one, as it is when the effect calls the
    callback right after the render that created it. *)
Definition call {V} (h : t V) : t V * nat :=
  let callId := S (lastCallId h) in
  let s := state h in
  ({| state := if loading s then s
               else {| loading := true; error := error s; value := value s |};
      lastCallId := callId |}, callId).

(** The state written by the two handlers of
    [fn(...).then(onValue, onError)]: [set({ value, loading: false })] and
    [set({ error, loading: false })]. The resolved value may itself be
    [undefined], hence [option V]. *)
Definition settled_state {V} (r : Settled (option V)) : AsyncState V :=
  match r with
  | Fulfilled v => {| loading := false; error := None; value := v |}
  | Rejected e => {| loading := false; error := Some e; value := None |}
  end.

(** A promise of the wrapped function settles. The state is written only
    when the component is mounted and the call is the latest one. *)
Definition settle {V} (isMounted : bool) (callId : nat)
    (r : Settled (option V)) (h : t V) : t V :=
  if isMounted && bool_decide (callId = lastCallId h)
  then {| state := settled_state r; lastCallId := lastCallId h |}
  else h.

(** What the promise returned by the callback settles to: both handlers
    return, [onError] returns the error as a value. *)
Definition returned {V} (r : Settled (option V))
    : Settled (option V + Error) :=
  match r with
  | Fulfilled v => Fulfilled (inl v)
  | Rejected e => Fulfilled (inr e)
  end.

End AsyncFn.

(** ** JavaScript arrays and sets *)

(** An element of the array handed to [flat()]: a string or an array of
    strings. *)
Inductive Nested : Type :=
| Item (s : string)
| Nest (l : list string).

(** [array.flat()], one level deep. *)
Fixpoint flat (a : list Nested) : list string :=
  match a with
  | [] => []
  | Item s :: a' => s :: flat a'
  | Nest l :: a' => l ++ flat a'
  end.

(** [set.add(x)] on a set kept in insertion order. *)
Definition Set_add (s : list string) (x : string) : list string :=
  if decide (x ∈ s) then s else s ++ [x].

(** [new Set(iterable)] *)
Definition Set_new (iterable : list string) : list string :=
  foldl Set_add [] iterable.

(** [Array.from(set)]: the elements in insertion order. *)
Definition Array_from (s : list string) : list string := s.

(** ** The component *)

Module Options.
(** The value [fetchTagsAndLifeCycles] resolves to. *)
Record t := { tags : list string; lifecycles : list string }.
End Options.

Inductive ObjectFit : Type := cover | contain.

Module Props.
Record t := {
  title : option string;
  objectFit : option ObjectFit;
  showTagsFilter : option bool;
  showLifecycleFilter : option bool
}.
End Props.

(** What the component holds between renders: the two [useState] cells, the
    two [useAsyncFn] hooks, and the router's history, of which
    [searchParams] is the current entry. *)
Record View := {
  mounted : bool;
  history : URL.History;
  filteredTags : list string;
  filteredLifecycle : list string;
  tools : AsyncFn.t (list ExploreTool);
  uniqueTagsAndLifecycle : AsyncFn.t Options.t
}.

Definition searchParams (v : View) : URL.URLSearchParams :=
  URL.location (history v).

(** The initial values of the two [useState] cells. *)
Definition initialize (searchParams : URL.URLSearchParams)
    : list string * list string :=
  (URL.getAll "tags" searchParams, URL.getAll "lifecycle" searchParams).

(** The component before its first effect runs. *)
Definition first_render (h : URL.History) : View :=
  let '(selectedTags, selectedLifecycle) := initialize (URL.location h) in
  {| mounted := true;
     history := h;
     filteredTags := selectedTags;
     filteredLifecycle := selectedLifecycle;
     tools := AsyncFn.init;
     uniqueTagsAndLifecycle := AsyncFn.init |}.

Definition handleTagsChange (value : list string) (v : View) : View :=
  {| mounted := mounted v;
     history := URL.setSearchParams [("tags", URL.Multi value)]
                  {| URL.replace := true |} (history v);
     filteredTags := value;
     filteredLifecycle := filteredLifecycle v;
     tools := tools v;
     uniqueTagsAndLifecycle := uniqueTagsAndLifecycle v |}.

Definition handleLifecycleChange (value : list string) (v : View) : View :=
  {| mounted := mounted v;
     history := URL.setSearchParams [("lifecycle", URL.Multi value)]
                  {| URL.replace := true |} (history v);
     filteredTags := filteredTags v;
     filteredLifecycle := value;
     tools := tools v;
     uniqueTagsAndLifecycle := uniqueTagsAndLifecycle v |}.

(** The request [fetchTools] builds from the two selections. *)
Definition filtered_request (filteredTags filteredLifecycle : list string)
    : option GetExploreToolsRequest :=
  Some {| Request.filter :=
            Some {| Request.tags := Some filteredTags;
                    Request.lifecycle := Some filteredLifecycle |} |}.

(** The async function given to the first [useAsyncFn]; it closes over the
    two selections. *)
Definition fetchTools (filteredTags filteredLifecycle : list string)
    : Async (option (list ExploreTool)) :=
  await_getTools (filtered_request filteredTags filteredLifecycle)
    (fun response => Return (response ≫= Response.tools)).

(** The async function given to the second [useAsyncFn]. *)
Definition fetchTagsAndLifeCycles : Async Options.t :=
  await_getTools None (fun response =>
    match response ≫= Response.tools with
    | None => Return {| Options.tags := []; Options.lifecycles := [] |}
    | Some allTools =>
        let uniqueTags :=
          Set_new (flat ((fun tool => Nest (default [] (tags tool)))
                           <$> allTools)) in
        let uniqueLifecycle :=
          Set_new (flat ((fun tool => match lifecycle tool with
                                      | Some l => Item l
                                      | None => Nest []
                                      end) <$> allTools)) in
        Return {| Options.tags := Array_from uniqueTags;
                  Options.lifecycles := Array_from uniqueLifecycle |}
    end).

(** The effect: both callbacks are called, [fetchTools] first. Each call
    bumps its hook's call id and marks it loading. *)
Definition effect (v : View) : View :=
  {| mounted := mounted v;
     history := history v;
     filteredTags := filteredTags v;
     filteredLifecycle := filteredLifecycle v;
     tools := (AsyncFn.call (tools v)).1;
     uniqueTagsAndLifecycle := (AsyncFn.call (uniqueTagsAndLifecycle v)).1 |}.

(** The requests one run of the effect hands to the client, in order. *)
Definition effect_requests (exploreApi : ExploreApi) (v : View)
    : list (option GetExploreToolsRequest) :=
  requests_of exploreApi (fetchTools (filteredTags v) (filteredLifecycle v))
  ++ requests_of exploreApi fetchTagsAndLifeCycles.

(** A promise of [fetchTools] settles. *)
Definition toolsSettled (callId : nat)
    (r : Settled (option (list ExploreTool))) (v : View) : View :=
  {| mounted := mounted v;
     history := history v;
     filteredTags := filteredTags v;
     filteredLifecycle := filteredLifecycle v;
     tools := AsyncFn.settle (mounted v) callId r (tools v);
     uniqueTagsAndLifecycle := uniqueTagsAndLifecycle v |}.

(** A resolved value that is never [undefined]. *)
Definition defined {A} (r : Settled A) : Settled (option A) :=
  match r with
  | Fulfilled a => Fulfilled (Some a)
  | Rejected e => Rejected e
  end.

(** A promise of [fetchTagsAndLifeCycles] settles. *)
Definition optionsSettled (callId : nat) (r : Settled Options.t) (v : View)
    : View :=
  {| mounted := mounted v;
     history := history v;
     filteredTags := filteredTags v;
     filteredLifecycle := filteredLifecycle v;
     tools := tools v;
     uniqueTagsAndLifecycle :=
       AsyncFn.settle (mounted v) callId (defined r)
         (uniqueTagsAndLifecycle v) |}.

(** What can happen to a mounted component. A change of either selection
    re-renders and re-runs the effect. *)
Inductive Event : Type :=
| TagsChange (value : list string)
| LifecycleChange (value : list string)
| ToolsSettled (callId : nat) (r : Settled (option (list ExploreTool)))
| OptionsSettled (callId : nat) (r : Settled Options.t).

Definition step (v : View) (ev : Event) : View :=
  match ev with
  | TagsChange value => effect (handleTagsChange value v)
  | LifecycleChange value => effect (handleLifecycleChange value v)
  | ToolsSettled callId r => toolsSettled callId r v
  | OptionsSettled callId r => optionsSettled callId r v
  end.

(** Mounting: first render, then the effect. *)
Definition mount (h : URL.History) : View := effect (first_render h).

(** One refresh against a client: the effect runs, then the two promises
    settle, the tools one first or second. *)
Definition refresh (exploreApi : ExploreApi) (toolsFirst : bool) (v : View)
    : View :=
  let v' := effect v in
  let rt := result_of exploreApi
              (fetchTools (filteredTags v) (filteredLifecycle v)) in
  let ro := result_of exploreApi fetchTagsAndLifeCycles in
  let it := AsyncFn.lastCallId (tools v') in
  let io := AsyncFn.lastCallId (uniqueTagsAndLifecycle v') in
  if toolsFirst
  then optionsSettled io ro (toolsSettled it rt v')
  else toolsSettled it rt (optionsSettled io ro v').

(** ** Rendering *)

(** The props one [ToolCard] is rendered with. *)
Record ToolCard := {
  key : nat;
  card : ExploreTool;
  card_objectFit : option ObjectFit
}.

Inductive Element : Type :=
| ContentHeader (title : string)
| Autocomplete (id : string) (options : list string)
| Progress
| WarningPanel (title : string)
| ItemCardGrid (children : list ToolCard).

(** [{cond && <element />}] *)
Definition jsx_and (cond : bool) (e : Element) : list Element :=
  if cond then [e] else [].

(** Truthiness of a value that is an object or [undefined]. *)
Definition truthy {A} (x : option A) : bool :=
  match x with Some _ => true | None => false end.

Definition Body (tools : list ExploreTool) (objectFit : option ObjectFit)
    : Element :=
  ItemCardGrid
    (imap (fun index tool =>
             {| key := index; card := tool; card_objectFit := objectFit |})
          tools).

(** The options offered by the two filter widgets. *)
Definition tagOptions (v : View) : list string :=
  default [] (Options.tags <$>
                AsyncFn.value (AsyncFn.state (uniqueTagsAndLifecycle v))).

Definition lifecycleOptions (v : View) : list string :=
  default [] (Options.lifecycles <$>
                AsyncFn.value (AsyncFn.state (uniqueTagsAndLifecycle v))).

(** The filter widgets. *)
Definition filters (props : Props.t) (v : View) : list Element :=
  let showTagsFilter := default false (Props.showTagsFilter props) in
  let showLifecycleFilter := default false (Props.showLifecycleFilter props) in
  let showFilters := showTagsFilter || showLifecycleFilter in
  if showFilters
  then jsx_and showTagsFilter (Autocomplete "tags-filter" (tagOptions v))
       ++ jsx_and showLifecycleFilter
            (Autocomplete "lifecycle-filter" (lifecycleOptions v))
  else [].

(** The last grid item: progress bar, warnings and cards. *)
Definition status (props : Props.t) (v : View) : list Element :=
  let tools := AsyncFn.state (tools v) in
  let uniqueTagsAndLifecycle := AsyncFn.state (uniqueTagsAndLifecycle v) in
  jsx_and (AsyncFn.loading tools || AsyncFn.loading uniqueTagsAndLifecycle)
    Progress
  ++ jsx_and (truthy (AsyncFn.error tools)
              || truthy (AsyncFn.error uniqueTagsAndLifecycle))
       (WarningPanel "Failed to load tools")
  ++ match AsyncFn.value tools with
     | Some value => jsx_and (Nat.eqb (length value) 0)
                       (WarningPanel "No tools found")
     | None => []
     end
  ++ match AsyncFn.value tools with
     | Some value => [Body value (Props.objectFit props)]
     | None => []
     end.

Definition ToolExplorerContent (props : Props.t) (v : View) : list Element :=
  ContentHeader (default "Tools" (Props.title props))
  :: filters props v ++ status props v.

(** Is some card grid among the rendered elements? *)
Definition is_card_grid (e : Element) : bool :=
  match e with ItemCardGrid _ => true | _ => false end.

(** ** Notions used to state the properties *)

(** The rule the options are described by, written from its wording: keep
    the first occurrence of every value, in the order of the input. *)
Fixpoint first_seen (l : list string) : list string :=
  match l with
  | [] => []
  | x :: l' => x :: filter (λ y, y ≠ x) (first_seen l')
  end.

(** The tags of a tool list, flattened in iteration order. *)
Definition all_tags (allTools : list ExploreTool) : list string :=
  allTools ≫= (λ tool, default [] (tags tool)).

(** The lifecycle values of a tool list, tools without one skipped. *)
Definition all_lifecycles (allTools : list ExploreTool) : list string :=
  omap lifecycle allTools.

(** What the caller of [getTools] gets once it reads [?.tools] off the
    answer. *)
Definition tools_of (r : Settled (option GetExploreToolsResponse))
    : Settled (option (list ExploreTool)) :=
  match r with
  | Fulfilled response => Fulfilled (response ≫= Response.tools)
  | Rejected e => Rejected e
  end.

Definition no_options : Options.t :=
  {| Options.tags := []; Options.lifecycles := [] |}.

Definition failed_warning : Element := WarningPanel "Failed to load tools".
Definition no_tools_warning : Element := WarningPanel "No tools found".

(** The titles of the cards rendered in card grids. *)
Definition card_titles (es : list Element) : list string :=
  es ≫= (λ e, match e with
              | ItemCardGrid children => (λ c, title (card c)) <$> children
              | _ => []
              end).

(** The card grids among rendered elements. *)
Definition card_grids (es : list Element) : list Element :=
  List.filter is_card_grid es.

(** Is the element the progress bar? *)
Definition is_progress (e : Element) : bool :=
  match e with Progress => true | _ => false end.

(** The rendered elements other than the progress bar. *)
Definition without_progress (es : list Element) : list Element :=
  List.filter (λ e, negb (is_progress e)) es.

(** The cards inside a card grid. *)
Definition grid_children (e : Element) : list ToolCard :=
  match e with ItemCardGrid children => children | _ => [] end.

(** How many of the events are changes of a selection. *)
Fixpoint changes (evs : list Event) : nat :=
  match evs with
  | [] => 0
  | TagsChange _ :: evs' => S (changes evs')
  | LifecycleChange _ :: evs' => S (changes evs')
  | _ :: evs' => changes evs'
  end.

(** The tool list carried by an answer of the client, if any. *)
Definition answer_tools (r : Settled (option GetExploreToolsResponse))
    : list ExploreTool :=
  match tools_of r with
  | Fulfilled (Some ts) => ts
  | _ => []
  end.

(** The loader does not hold an error and a value at once. *)
Definition one_outcome {V} (h : AsyncFn.t V) : Prop :=
  AsyncFn.error (AsyncFn.state h) = None
  ∨ AsyncFn.value (AsyncFn.state h) = None.

(** The events the tools loader can see: all but the answers to the
    options fetch. *)
Definition tools_events (evs : list Event) : list Event :=
  List.filter (λ ev, match ev with OptionsSettled _ _ => false | _ => true end)
    evs.

(** The events the options loader can see: all but the answers to the
    tools fetch. *)
Definition options_events (evs : list Event) : list Event :=
  List.filter (λ ev, match ev with ToolsSettled _ _ => false | _ => true end)
    evs.

(** A client that answers every request with the same tool list. *)
Definition answering (ts : list ExploreTool) : ExploreApi := fun _ =>
  Fulfilled (Some {| Response.tools := Some ts |}).

(** A client that rejects the request without argument and answers every
    other request with the same tool list. *)
Definition rejecting_unfiltered (ts : list ExploreTool) : ExploreApi :=
  fun request =>
    match request with
    | None => Rejected {| message := "Failed to fetch" |}
    | Some _ => Fulfilled (Some {| Response.tools := Some ts |})
    end.

(** ** The clients of the component's test suite *)

Module Fixture.

Definition defaultTools : list ExploreTool :=
  [ {| title := "Lighthouse";
       description := "Google's Lighthouse tool";
       url := "/lighthouse";
       image := Some "lighthouse-logo.png";
       tags := Some ["web"; "seo"; "accessibility"; "performance"];
       lifecycle := None |};
    {| title := "Tech Radar";
       description := "Tech Radar is a list of technologies";
       url := "/tech-radar";
       image := Some "tech-radar-hero.png";
       tags := Some ["standards"; "landscape"];
       lifecycle := Some "experimental" |} ].

(** [array.includes(x)] *)
Definition includes (a : list string) (x : string) : bool :=
  bool_decide (x ∈ a).

(** [array.some(p)] *)
Definition some {A} (p : A -> bool) (a : list A) : bool := existsb p a.

(** [array.filter(p)] *)
Definition array_filter {A} (p : A -> bool) (a : list A) : list A :=
  List.filter p a.

Definition defaultTagFilterFunction : ExploreApi := fun request =>
  match (request ≫= Request.filter) ≫= Request.tags with
  | Some wanted =>
      if Nat.ltb 0 (length wanted) then
        Fulfilled (Some {| Response.tools := Some
          (array_filter (fun tool =>
             match tags tool with
             | Some ts => some (includes wanted) ts
             | None => false
             end) defaultTools) |})
      else Fulfilled (Some {| Response.tools := Some defaultTools |})
  | None => Fulfilled (Some {| Response.tools := Some defaultTools |})
  end.

Definition defaultLifecycleFilterFunction : ExploreApi := fun request =>
  match (request ≫= Request.filter) ≫= Request.lifecycle with
  | Some wanted =>
      if Nat.ltb 0 (length wanted) then
        Fulfilled (Some {| Response.tools := Some
          (array_filter (fun tool =>
             match lifecycle tool with
             | Some l => includes wanted l
             | None => false
             end) defaultTools) |})
      else Fulfilled (Some {| Response.tools := Some defaultTools |})
  | None => Fulfilled (Some {| Response.tools := Some defaultTools |})
  end.

(** [getTools.mockResolvedValue({ tools: [] })] *)
Definition emptyCatalog : ExploreApi := fun _ =>
  Fulfilled (Some {| Response.tools := Some [] |}).

(** A client whose every call rejects. *)
Definition failing : ExploreApi := fun _ =>
  Rejected {| message := "Failed to fetch" |}.

(** A client that resolves with [undefined]. *)
Definition nullish : ExploreApi := fun _ => Fulfilled None.

(** A client that resolves with an object without [tools]. *)
Definition noToolsField : ExploreApi := fun _ =>
  Fulfilled (Some {| Response.tools := None |}).

(** A history with one entry. *)
Definition at_query (q : URL.URLSearchParams) : URL.History :=
  {| URL.back := []; URL.location := q; URL.forward := [] |}.

(** The component rendered at [?lifecycle=experimental]. *)
Definition at_experimental : View :=
  first_render (at_query [("lifecycle", "experimental")]).

(** The component rendered at [?tags=web]. *)
Definition at_web : View := first_render (at_query [("tags", "web")]).

(** The component after a first load of the default catalog. *)
Definition loaded : View :=
  refresh defaultTagFilterFunction true (first_render (at_query [])).

Definition noProps : Props.t :=
  {| Props.title := None; Props.objectFit := None;
     Props.showTagsFilter := None; Props.showLifecycleFilter := None |}.

End Fixture.

(** ** First-seen order *)

Section FirstSeen.

Implicit Types (l s : list string) (x : string).

Lemma first_seen_filter (P : string → Prop) `{!∀ x, Decision (P x)} l :
  filter P (first_seen l) = first_seen (filter P l).
Proof.
  induction l as [|x l IH]; [done|].
  cbn [first_seen]. rewrite !filter_cons.
  destruct (decide (P x)) as [Hx|Hx].
  - cbn [first_seen]. f_equal. rewrite <- IH.
    rewrite !list_filter_filter. apply list_filter_iff. tauto.
  - rewrite <- IH. rewrite list_filter_filter.
    apply list_filter_iff. intros y. split; [tauto|].
    intros Hy. split; [done|]. intros ->. done.
Qed.

Lemma filter_all (P : string → Prop) `{!∀ x, Decision (P x)} l :
  (∀ x, P x) → filter P l = l.
Proof.
  intros HP. induction l as [|x l IH]; [done|].
  rewrite filter_cons_True by done. by rewrite IH.
Qed.

Lemma elem_of_first_seen l x : x ∈ first_seen l ↔ x ∈ l.
Proof.
  induction l as [|y l IH]; [done|].
  cbn [first_seen]. rewrite !elem_of_cons, list_elem_of_filter, IH.
  destruct (decide (x = y)) as [->|Hxy]; tauto.
Qed.

Lemma NoDup_first_seen l : NoDup (first_seen l).
Proof.
  induction l as [|x l IH]; cbn [first_seen]; [constructor|].
  apply NoDup_cons. split.
  - rewrite list_elem_of_filter. tauto.
  - by apply NoDup_filter.
Qed.

Lemma sublist_first_seen l : sublist (first_seen l) l.
Proof.
  induction l as [|x l IH]; cbn [first_seen]; [constructor|].
  apply sublist_skip. etrans; [apply sublist_filter|done].
Qed.

(** What a prefix of the input contributes comes first; the rest only adds
    values the prefix does not hold. *)
Lemma first_seen_app l1 l2 :
  first_seen (l1 ++ l2)
  = first_seen l1 ++ filter (λ y, y ∉ l1) (first_seen l2).
Proof.
  induction l1 as [|x l1 IH]; cbn [app first_seen].
  - symmetry. apply filter_all. intros y. apply not_elem_of_nil.
  - rewrite IH, filter_app, list_filter_filter. do 3 f_equal.
    apply list_filter_iff. intros y. rewrite elem_of_cons. tauto.
Qed.

(** Adding to a set one by one keeps what is there and appends the
    first occurrences of what is new. *)
Lemma foldl_Set_add l : ∀ s,
  foldl Set_add s l = s ++ first_seen (filter (λ y, y ∉ s) l).
Proof.
  induction l as [|x l IH]; intros s.
  - by rewrite app_nil_r.
  - cbn [foldl]. rewrite IH, filter_cons. unfold Set_add.
    destruct (decide (x ∈ s)) as [Hx|Hx].
    + rewrite decide_False by tauto. done.
    + rewrite decide_True by done. cbn [first_seen].
      rewrite <- app_assoc. cbn [app]. do 2 f_equal.
      rewrite first_seen_filter, list_filter_filter.
      f_equal. apply list_filter_iff. intros y.
      rewrite elem_of_app, list_elem_of_singleton. tauto.
Qed.

Lemma Set_new_first_seen l : Array_from (Set_new l) = first_seen l.
Proof.
  unfold Array_from, Set_new. rewrite foldl_Set_add. cbn [app].
  f_equal. apply filter_all. intros y. apply not_elem_of_nil.
Qed.

Lemma flat_tags (allTools : list ExploreTool) :
  flat ((λ tool, Nest (default [] (tags tool))) <$> allTools)
  = all_tags allTools.
Proof.
  unfold all_tags. induction allTools as [|t ts IH]; [done|].
  cbn. by rewrite IH.
Qed.

Lemma flat_lifecycles (allTools : list ExploreTool) :
  flat ((λ tool, match lifecycle tool with
                 | Some l => Item l
                 | None => Nest []
                 end) <$> allTools)
  = all_lifecycles allTools.
Proof.
  unfold all_lifecycles. induction allTools as [|t ts IH]; [done|].
  cbn. destruct (lifecycle t); cbn; by rewrite IH.
Qed.

End FirstSeen.

(** ** Filter state and the URL *)

Section FilterState.

Implicit Types (q : URL.URLSearchParams) (v : View).
Implicit Types (name : string) (value x : list string).

(** [getAll] picks the values of the pairs with the given name, in
    order. *)
Lemma getAll_filter name q :
  URL.getAll name q = (filter (λ p, p.1 = name) q).*2.
Proof.
  induction q as [|[k w] q IH]; [done|].
  cbn [URL.getAll]. rewrite filter_cons. cbn [fst].
  destruct (decide (k = name)); cbn; by rewrite IH.
Qed.

Lemma getAll_absent name q : URL.has name q = false → URL.getAll name q = [].
Proof.
  unfold URL.has. rewrite bool_decide_eq_false.
  induction q as [|[k w] q IH]; [done|].
  cbn. rewrite elem_of_cons. intros Hno.
  rewrite decide_False by (intros ->; tauto). apply IH. tauto.
Qed.

Lemma getAll_single key name value :
  URL.getAll name ((λ w, (key, w)) <$> value)
  = if decide (key = name) then value else [].
Proof.
  induction value as [|w value IH]; cbn.
  - by destruct (decide (key = name)).
  - rewrite IH. by destruct (decide (key = name)).
Qed.

Lemma createSearchParams_single key value :
  URL.createSearchParams [(key, URL.Multi value)]
  = (λ w, (key, w)) <$> value.
Proof. done. Qed.

Lemma searchParams_handleTagsChange v value :
  searchParams (handleTagsChange value v) = (λ w, ("tags", w)) <$> value.
Proof. done. Qed.

Lemma searchParams_handleLifecycleChange v value :
  searchParams (handleLifecycleChange value v)
  = (λ w, ("lifecycle", w)) <$> value.
Proof. done. Qed.

End FilterState.

(** ** Claims about the filter state *)

(** C1, as stated, fails: at [?lifecycle=experimental], choosing the tag
    [web] leaves no [lifecycle] value in the URL, so the other key is not
    left unchanged. *)
Lemma handleTagsChange_drops_lifecycle :
  URL.getAll "lifecycle"
    (searchParams (handleTagsChange ["web"] Fixture.at_experimental))
  ≠ URL.getAll "lifecycle" (searchParams Fixture.at_experimental).
Proof. cbv. discriminate. Qed.

(** C1, amended: [handleTagsChange value] makes the URL query consist of
    exactly one [tags] pair per element of [value] (the empty query when
    [value] is empty), so that reading any other key, [lifecycle] included,
    gives nothing afterwards; the current history entry is replaced, the
    entries before and after it and their number are kept; in memory the
    selected tags become [value] and the selected lifecycles are kept.
    [handleLifecycleChange] does the same with the [lifecycle] key. *)
Theorem handlers_rewrite_whole_query (v : View) (value : list string)
    (name : string) :
  (searchParams (handleTagsChange value v) = (λ w, ("tags", w)) <$> value
   ∧ searchParams (handleTagsChange [] v) = []
   ∧ URL.getAll name (searchParams (handleTagsChange value v))
     = (if decide ("tags" = name) then value else [])
   ∧ URL.back (history (handleTagsChange value v)) = URL.back (history v)
   ∧ URL.forward (history (handleTagsChange value v))
     = URL.forward (history v)
   ∧ URL.entries (history (handleTagsChange value v))
     = URL.entries (history v)
   ∧ filteredTags (handleTagsChange value v) = value
   ∧ filteredLifecycle (handleTagsChange value v) = filteredLifecycle v)
  ∧
  (searchParams (handleLifecycleChange value v)
   = (λ w, ("lifecycle", w)) <$> value
   ∧ searchParams (handleLifecycleChange [] v) = []
   ∧ URL.getAll name (searchParams (handleLifecycleChange value v))
     = (if decide ("lifecycle" = name) then value else [])
   ∧ URL.back (history (handleLifecycleChange value v))
     = URL.back (history v)
   ∧ URL.forward (history (handleLifecycleChange value v))
     = URL.forward (history v)
   ∧ URL.entries (history (handleLifecycleChange value v))
     = URL.entries (history v)
   ∧ filteredLifecycle (handleLifecycleChange value v) = value
   ∧ filteredTags (handleLifecycleChange value v) = filteredTags v).
Proof.
  split.
  - rewrite !searchParams_handleTagsChange, getAll_single.
    unfold handleTagsChange, URL.setSearchParams, URL.navigate.
    cbn [history URL.back URL.forward URL.replace
         filteredTags filteredLifecycle].
    split_and!; done.
  - rewrite !searchParams_handleLifecycleChange, getAll_single.
    unfold handleLifecycleChange, URL.setSearchParams, URL.navigate.
    cbn [history URL.back URL.forward URL.replace
         filteredTags filteredLifecycle].
    split_and!; done.
Qed.

(** C2: [initialize] returns exactly the values stored under [tags] and
    under [lifecycle], in order, and nothing for a key that is absent; the
    first render starts from these; and after [handleTagsChange x], reading
    the URL back and initializing again gives the selected tags [x], for
    every [x], the empty one included. *)
Theorem initialize_roundtrip (h : URL.History) (q : URL.URLSearchParams)
    (x : list string) (v : View) :
  initialize q = ((filter (λ p, p.1 = "tags") q).*2,
                  (filter (λ p, p.1 = "lifecycle") q).*2)
  ∧ (URL.has "tags" q = false → (initialize q).1 = [])
  ∧ (URL.has "lifecycle" q = false → (initialize q).2 = [])
  ∧ (filteredTags (first_render h), filteredLifecycle (first_render h))
    = initialize (URL.location h)
  ∧ (initialize (searchParams (handleTagsChange x v))).1 = x
  ∧ (initialize (searchParams (handleTagsChange [] v))).1 = []
  ∧ filteredTags (first_render (history (handleTagsChange x v))) = x.
Proof.
  assert (Hrt : ∀ y, URL.getAll "tags" (searchParams (handleTagsChange y v))
                     = y).
  { intros y. rewrite searchParams_handleTagsChange, getAll_single.
    by rewrite decide_True. }
  split_and!.
  - unfold initialize. by rewrite !getAll_filter.
  - apply getAll_absent.
  - apply getAll_absent.
  - done.
  - apply Hrt.
  - apply Hrt.
  - apply Hrt.
Qed.

Lemma initialize_roundtrip_witness :
  URL.has "tags" [("lifecycle", "experimental")] = false
  ∧ (initialize [("lifecycle", "experimental")]).1 = []
  ∧ URL.has "lifecycle" [("tags", "web")] = false
  ∧ (initialize [("tags", "web")]).2 = [].
Proof.
  split; [reflexivity|]. split.
  - destruct (initialize_roundtrip (Fixture.at_query [])
                [("lifecycle", "experimental")] [] Fixture.at_web)
      as (_ & H & _).
    apply H. reflexivity.
  - split; [reflexivity|].
    destruct (initialize_roundtrip (Fixture.at_query [])
                [("tags", "web")] [] Fixture.at_web)
      as (_ & _ & H & _).
    apply H. reflexivity.
Defined.

(** ** Claims about the two async functions *)

Section Loaders.

Variable exploreApi : ExploreApi.

Lemma fetchTagsAndLifeCycles_run :
  run exploreApi fetchTagsAndLifeCycles
  = ([None],
     match exploreApi None with
     | Rejected e => Rejected e
     | Fulfilled response =>
         match response ≫= Response.tools with
         | None =>
             Fulfilled {| Options.tags := []; Options.lifecycles := [] |}
         | Some allTools =>
             Fulfilled
               {| Options.tags := first_seen (all_tags allTools);
                  Options.lifecycles := first_seen (all_lifecycles allTools) |}
         end
     end).
Proof.
  unfold fetchTagsAndLifeCycles, await_getTools. cbn [run].
  destruct (exploreApi None) as [response|e]; [|done].
  destruct (response ≫= Response.tools) as [allTools|]; [|done].
  cbn [run]. by rewrite flat_tags, flat_lifecycles, !Set_new_first_seen.
Qed.

Lemma fetchTools_run (filteredTags filteredLifecycle : list string) :
  run exploreApi (fetchTools filteredTags filteredLifecycle)
  = ([filtered_request filteredTags filteredLifecycle],
     match exploreApi (filtered_request filteredTags filteredLifecycle) with
     | Rejected e => Rejected e
     | Fulfilled response => Fulfilled (response ≫= Response.tools)
     end).
Proof.
  unfold fetchTools, await_getTools. cbn [run].
  by destruct (exploreApi _).
Qed.

End Loaders.

(** C3: when the catalog answers the unfiltered request with a tool list,
    [fetchTagsAndLifeCycles] resolves to the tags of the tools, flattened in
    the order of the list and reduced to first occurrences, and to the
    lifecycle values of the tools that have one, reduced the same way; both
    sequences are free of duplicates, hold exactly the values of the input,
    and keep the input's order. *)
Theorem computeOptions_first_seen (exploreApi : ExploreApi)
    (allTools : list ExploreTool) :
  exploreApi None = Fulfilled (Some {| Response.tools := Some allTools |}) →
  result_of exploreApi fetchTagsAndLifeCycles
  = Fulfilled {| Options.tags := first_seen (all_tags allTools);
                 Options.lifecycles := first_seen (all_lifecycles allTools) |}
  ∧ NoDup (first_seen (all_tags allTools))
  ∧ NoDup (first_seen (all_lifecycles allTools))
  ∧ sublist (first_seen (all_tags allTools)) (all_tags allTools)
  ∧ sublist (first_seen (all_lifecycles allTools)) (all_lifecycles allTools)
  ∧ (∀ x, x ∈ first_seen (all_tags allTools) ↔ x ∈ all_tags allTools)
  ∧ (∀ x, x ∈ first_seen (all_lifecycles allTools)
          ↔ x ∈ all_lifecycles allTools).
Proof.
  intros Hresp. split_and!.
  - unfold result_of. rewrite fetchTagsAndLifeCycles_run, Hresp. done.
  - apply NoDup_first_seen.
  - apply NoDup_first_seen.
  - apply sublist_first_seen.
  - apply sublist_first_seen.
  - intros x. apply elem_of_first_seen.
  - intros x. apply elem_of_first_seen.
Qed.

Lemma computeOptions_first_seen_witness :
  result_of Fixture.defaultTagFilterFunction fetchTagsAndLifeCycles
  = Fulfilled
      {| Options.tags := ["web"; "seo"; "accessibility"; "performance";
                          "standards"; "landscape"];
         Options.lifecycles := ["experimental"] |}.
Proof.
  exact (proj1 (computeOptions_first_seen Fixture.defaultTagFilterFunction
                  Fixture.defaultTools eq_refl)).
Defined.

(** C4: whatever the two selections are, [fetchTagsAndLifeCycles] hands the
    client exactly one request, the one without any argument, and a run of
    the effect issues the filtered request followed by that unfiltered
    one. *)
Theorem fetchTagsAndLifeCycles_unfiltered (exploreApi : ExploreApi)
    (v : View) :
  requests_of exploreApi fetchTagsAndLifeCycles = [None]
  ∧ effect_requests exploreApi v
    = [filtered_request (filteredTags v) (filteredLifecycle v); None].
Proof.
  unfold effect_requests, requests_of.
  by rewrite fetchTagsAndLifeCycles_run, fetchTools_run.
Qed.

(** C6: [fetchTools] always hands the client a request whose filter object
    carries the two current selections; and for a client that answers the
    filter with two empty sets as it answers no argument at all,
    [fetchTools] with both selections empty settles exactly as the
    unfiltered call does. *)
Theorem fetchTools_empty_filter (exploreApi : ExploreApi)
    (filteredTags filteredLifecycle : list string) :
  exploreApi (filtered_request [] []) = exploreApi None →
  requests_of exploreApi (fetchTools filteredTags filteredLifecycle)
  = [filtered_request filteredTags filteredLifecycle]
  ∧ filtered_request filteredTags filteredLifecycle
    = Some {| Request.filter :=
                Some {| Request.tags := Some filteredTags;
                        Request.lifecycle := Some filteredLifecycle |} |}
  ∧ result_of exploreApi (fetchTools [] []) = tools_of (exploreApi None).
Proof.
  intros Hcontract. unfold requests_of, result_of.
  rewrite !fetchTools_run, Hcontract. done.
Qed.

Lemma fetchTools_empty_filter_witness :
  result_of Fixture.defaultTagFilterFunction (fetchTools [] [])
  = Fulfilled (Some Fixture.defaultTools).
Proof.
  exact (proj2 (proj2 (fetchTools_empty_filter
                         Fixture.defaultTagFilterFunction ["web"] []
                         eq_refl))).
Defined.

(** ** The loaders' states and what is rendered from them *)

Section Hooks.

Context {V : Type}.
Implicit Types (h : AsyncFn.t V) (r : Settled (option V)).

Lemma call_loading h : AsyncFn.loading (AsyncFn.state (AsyncFn.call h).1) = true.
Proof.
  unfold AsyncFn.call. cbn.
  by destruct (AsyncFn.loading (AsyncFn.state h)) eqn:E.
Qed.

(** While a call is pending the last value and error stay in the state. *)
Lemma call_keeps h :
  AsyncFn.value (AsyncFn.state (AsyncFn.call h).1)
  = AsyncFn.value (AsyncFn.state h)
  ∧ AsyncFn.error (AsyncFn.state (AsyncFn.call h).1)
    = AsyncFn.error (AsyncFn.state h).
Proof.
  unfold AsyncFn.call. cbn.
  by destruct (AsyncFn.loading (AsyncFn.state h)).
Qed.

Lemma settle_latest h r :
  AsyncFn.state (AsyncFn.settle true (AsyncFn.lastCallId h) r h)
  = AsyncFn.settled_state r.
Proof.
  unfold AsyncFn.settle. by rewrite bool_decide_true.
Qed.

(** A call that is not the latest one leaves the hook as it is. *)
Lemma settle_stale h r callId :
  callId ≠ AsyncFn.lastCallId h → AsyncFn.settle true callId r h = h.
Proof.
  intros Hne. unfold AsyncFn.settle. by rewrite bool_decide_false.
Qed.

End Hooks.

Section Status.

Variable props : Props.t.
Implicit Types v : View.

Lemma failed_warning_shown v :
  failed_warning ∈ status props v
  ↔ is_Some (AsyncFn.error (AsyncFn.state (tools v)))
    ∨ is_Some (AsyncFn.error (AsyncFn.state (uniqueTagsAndLifecycle v))).
Proof.
  unfold status, failed_warning, jsx_and, Body.
  destruct (AsyncFn.error (AsyncFn.state (tools v))) as [e1|],
    (AsyncFn.error (AsyncFn.state (uniqueTagsAndLifecycle v))) as [e2|];
    cbn [truthy orb]; rewrite ?is_Some_alt.
  1-3: split; [tauto|intros _];
    rewrite elem_of_app; right; apply elem_of_cons; by left.
  split; [|tauto]. intros Hin. exfalso.
  destruct (_ || _), (AsyncFn.value (AsyncFn.state (tools v))) as [[|t ts]|];
    cbn in Hin; set_solver.
Qed.

Lemma no_tools_warning_shown v :
  no_tools_warning ∈ status props v
  ↔ AsyncFn.value (AsyncFn.state (tools v)) = Some [].
Proof.
  unfold status, no_tools_warning, jsx_and, Body.
  destruct (_ || _), (_ || _),
    (AsyncFn.value (AsyncFn.state (tools v))) as [[|t ts]|];
    cbn; set_solver.
Qed.

Lemma card_grids_status v :
  card_grids (status props v)
  = match AsyncFn.value (AsyncFn.state (tools v)) with
    | Some value => [Body value (Props.objectFit props)]
    | None => []
    end.
Proof.
  unfold status, card_grids, jsx_and, Body.
  by destruct (_ || _), (_ || _),
    (AsyncFn.value (AsyncFn.state (tools v))) as [[|t ts]|].
Qed.

End Status.

Section Refresh.

Variable exploreApi : ExploreApi.
Implicit Types v : View.

Lemma toolsSettled_latest v r :
  mounted v = true →
  AsyncFn.state
    (tools (toolsSettled (AsyncFn.lastCallId (tools (effect v))) r (effect v)))
  = AsyncFn.settled_state r.
Proof.
  intros Hm. unfold toolsSettled, effect. cbn [tools mounted].
  rewrite Hm. apply settle_latest.
Qed.

Lemma optionsSettled_latest v r :
  mounted v = true →
  AsyncFn.state
    (uniqueTagsAndLifecycle
       (optionsSettled (AsyncFn.lastCallId (uniqueTagsAndLifecycle (effect v)))
          r (effect v)))
  = AsyncFn.settled_state (defined r).
Proof.
  intros Hm. unfold optionsSettled, effect.
  cbn [uniqueTagsAndLifecycle mounted].
  rewrite Hm. apply settle_latest.
Qed.

Lemma refresh_tools toolsFirst v :
  mounted v = true →
  AsyncFn.state (tools (refresh exploreApi toolsFirst v))
  = AsyncFn.settled_state
      (result_of exploreApi
         (fetchTools (filteredTags v) (filteredLifecycle v))).
Proof.
  intros Hm. unfold refresh.
  destruct toolsFirst; unfold optionsSettled, toolsSettled, effect;
    cbn [tools mounted]; rewrite Hm; apply settle_latest.
Qed.

Lemma refresh_options toolsFirst v :
  mounted v = true →
  AsyncFn.state (uniqueTagsAndLifecycle (refresh exploreApi toolsFirst v))
  = AsyncFn.settled_state
      (defined (result_of exploreApi fetchTagsAndLifeCycles)).
Proof.
  intros Hm. unfold refresh.
  destruct toolsFirst; unfold optionsSettled, toolsSettled, effect;
    cbn [uniqueTagsAndLifecycle mounted]; rewrite Hm; apply settle_latest.
Qed.

End Refresh.

(** ** Claims about failures and empty results *)

(** C5, as stated, fails: after a first successful load the tag filter
    offers six options; when the next unfiltered fetch rejects, it offers
    none, not the previous ones. *)
Lemma options_cleared_on_failure :
  tagOptions (refresh Fixture.failing true Fixture.loaded)
  ≠ tagOptions Fixture.loaded.
Proof. vm_compute. discriminate. Qed.

(** C5, amended: when the unfiltered fetch rejects, the promise returned by
    the hook's callback is fulfilled with the error, so nothing is thrown at
    the caller; once the rejection is applied the options loader is in its
    failed state, carrying the error, the failure warning is rendered, and
    both filter widgets offer no options at all; the previous options are
    offered only while the fetch is still pending. *)
Theorem options_failure (exploreApi : ExploreApi) (props : Props.t)
    (toolsFirst : bool) (v : View) (e : Error) :
  mounted v = true →
  exploreApi None = Rejected e →
  AsyncFn.returned (defined (result_of exploreApi fetchTagsAndLifeCycles))
  = Fulfilled (inr e)
  ∧ AsyncFn.state (uniqueTagsAndLifecycle (refresh exploreApi toolsFirst v))
    = {| AsyncFn.loading := false; AsyncFn.error := Some e;
         AsyncFn.value := None |}
  ∧ failed_warning ∈ status props (refresh exploreApi toolsFirst v)
  ∧ tagOptions (refresh exploreApi toolsFirst v) = []
  ∧ lifecycleOptions (refresh exploreApi toolsFirst v) = []
  ∧ tagOptions (effect v) = tagOptions v
  ∧ lifecycleOptions (effect v) = lifecycleOptions v.
Proof.
  intros Hm Hrej.
  assert (Hres : result_of exploreApi fetchTagsAndLifeCycles = Rejected e).
  { unfold result_of. by rewrite fetchTagsAndLifeCycles_run, Hrej. }
  pose proof (refresh_options exploreApi toolsFirst v Hm) as Hst.
  rewrite Hres in Hst. cbn in Hst.
  split_and!.
  - by rewrite Hres.
  - done.
  - apply failed_warning_shown. right. by rewrite Hst.
  - unfold tagOptions. by rewrite Hst.
  - unfold lifecycleOptions. by rewrite Hst.
  - unfold tagOptions, effect. cbn [uniqueTagsAndLifecycle].
    by rewrite (proj1 (call_keeps _)).
  - unfold lifecycleOptions, effect. cbn [uniqueTagsAndLifecycle].
    by rewrite (proj1 (call_keeps _)).
Qed.

Lemma options_failure_witness :
  mounted Fixture.loaded = true
  ∧ tagOptions (refresh Fixture.failing false Fixture.loaded) = []
  ∧ tagOptions (effect Fixture.loaded)
    = ["web"; "seo"; "accessibility"; "performance"; "standards";
       "landscape"].
Proof.
  destruct (options_failure Fixture.failing Fixture.noProps false
              Fixture.loaded {| message := "Failed to fetch" |}
              eq_refl eq_refl)
    as (_ & _ & _ & Hafter & _ & Hpending & _).
  split; [reflexivity|]. split; [exact Hafter|].
  rewrite Hpending. reflexivity.
Defined.

(** C7, as stated, fails: when the catalog resolves with zero tools the
    card grid is still rendered, with no card in it. *)
Lemma empty_result_renders_grid :
  card_grids
    (status Fixture.noProps
       (refresh Fixture.emptyCatalog true
          (first_render (Fixture.at_query []))))
  ≠ [].
Proof. vm_compute. discriminate. Qed.

(** C7, amended: when the filtered fetch resolves with zero tools, the
    [No tools found] warning is rendered, which is not the failure warning,
    and exactly one card grid is rendered, holding no card; the failure
    warning then depends on the options loader alone. This holds as soon as
    the answer is applied, whatever the options loader is doing. An options
    loader that succeeded with empty sets adds no indicator: the failure
    warning is then shown exactly when the tools loader failed, and the
    [No tools found] warning exactly when the tool list is empty. *)
Theorem empty_result_indicator (exploreApi : ExploreApi) (props : Props.t)
    (toolsFirst : bool) (v : View) :
  mounted v = true →
  exploreApi (filtered_request (filteredTags v) (filteredLifecycle v))
  = Fulfilled (Some {| Response.tools := Some [] |}) →
  (no_tools_warning ∈ status props (refresh exploreApi toolsFirst v)
   ∧ no_tools_warning ≠ failed_warning
   ∧ card_grids (status props (refresh exploreApi toolsFirst v))
     = [ItemCardGrid []]
   ∧ (failed_warning ∈ status props (refresh exploreApi toolsFirst v)
      ↔ is_Some (AsyncFn.error
                   (AsyncFn.state
                      (uniqueTagsAndLifecycle
                         (refresh exploreApi toolsFirst v))))))
  ∧ (no_tools_warning
     ∈ status props
         (toolsSettled (AsyncFn.lastCallId (tools (effect v)))
            (Fulfilled (Some [])) (effect v))
     ∧ card_grids
         (status props
            (toolsSettled (AsyncFn.lastCallId (tools (effect v)))
               (Fulfilled (Some [])) (effect v)))
       = [ItemCardGrid []])
  ∧ (∀ w : View,
       AsyncFn.state (uniqueTagsAndLifecycle w)
       = AsyncFn.settled_state (Fulfilled (Some no_options)) →
       (failed_warning ∈ status props w
        ↔ is_Some (AsyncFn.error (AsyncFn.state (tools w))))
       ∧ (no_tools_warning ∈ status props w
          ↔ AsyncFn.value (AsyncFn.state (tools w)) = Some [])).
Proof.
  intros Hm Hresp.
  pose proof (refresh_tools exploreApi toolsFirst v Hm) as Hst.
  unfold result_of in Hst. rewrite fetchTools_run in Hst.
  rewrite Hresp in Hst. cbn in Hst.
  pose proof (toolsSettled_latest v (Fulfilled (Some [])) Hm) as Hst'.
  split_and!.
  - apply no_tools_warning_shown. by rewrite Hst.
  - discriminate.
  - rewrite card_grids_status. by rewrite Hst.
  - rewrite failed_warning_shown, Hst. cbn.
    split; [|tauto]. intros [[? [=]]|]; done.
  - apply no_tools_warning_shown. by rewrite Hst'.
  - rewrite card_grids_status. by rewrite Hst'.
  - intros w Hw. split.
    + rewrite failed_warning_shown, Hw. cbn.
      split; [|tauto]. intros [|[? [=]]]; done.
    + apply no_tools_warning_shown.
Qed.

Lemma empty_result_indicator_witness :
  no_tools_warning
  ∈ status Fixture.noProps
      (refresh Fixture.emptyCatalog false
         (first_render (Fixture.at_query [])))
  ∧ card_grids
      (status Fixture.noProps
         (refresh Fixture.emptyCatalog false
            (first_render (Fixture.at_query []))))
    = [ItemCardGrid []].
Proof.
  destruct (empty_result_indicator Fixture.emptyCatalog Fixture.noProps
              false (first_render (Fixture.at_query [])) eq_refl eq_refl)
    as [(Hshown & _ & Hgrid & _) _].
  exact (conj Hshown Hgrid).
Defined.

(** C8, as stated, fails: after a first load, a change of the selection
    starts both fetches anew; when the unfiltered one rejects while the
    filtered one is still pending, the failure warning is rendered beside
    the cards of the list loaded before. *)
Lemma warning_beside_previous_list :
  failed_warning
  ∈ status Fixture.noProps
      (step (step Fixture.loaded (TagsChange []))
         (OptionsSettled 2 (Rejected {| message := "Failed to fetch" |})))
  ∧ card_titles
      (status Fixture.noProps
         (step (step Fixture.loaded (TagsChange []))
            (OptionsSettled 2 (Rejected {| message := "Failed to fetch" |}))))
    = ["Lighthouse"; "Tech Radar"].
Proof.
  split; [|vm_compute; reflexivity].
  apply failed_warning_shown. right. vm_compute. by eexists.
Qed.

(** C8, amended: the failure warning is rendered exactly when the tools
    loader or the options loader holds an error. When the filtered fetch
    rejects, then, as soon as the rejection is applied and also once both
    fetches of the refresh have settled, in either order, the warning is
    rendered and no card grid is, whatever tool list had been loaded
    before. When the unfiltered fetch rejects, the warning is rendered as
    well, but beside a tool list: as soon as that rejection is applied, the
    card grid that was on display stays on display, and once the filtered
    fetch has answered with a tool list, the grid of that list is rendered
    beside the warning. *)
Theorem failure_warning (exploreApi : ExploreApi) (props : Props.t)
    (toolsFirst : bool) (v : View) (e : Error) (ts : list ExploreTool) :
  mounted v = true →
  (∀ w : View,
     failed_warning ∈ status props w
     ↔ is_Some (AsyncFn.error (AsyncFn.state (tools w)))
       ∨ is_Some (AsyncFn.error (AsyncFn.state (uniqueTagsAndLifecycle w))))
  ∧ (exploreApi (filtered_request (filteredTags v) (filteredLifecycle v))
     = Rejected e →
     failed_warning ∈ status props (refresh exploreApi toolsFirst v)
     ∧ card_grids (status props (refresh exploreApi toolsFirst v)) = [])
  ∧ (failed_warning
     ∈ status props
         (toolsSettled (AsyncFn.lastCallId (tools (effect v)))
            (Rejected e) (effect v))
     ∧ card_grids
         (status props
            (toolsSettled (AsyncFn.lastCallId (tools (effect v)))
               (Rejected e) (effect v)))
       = [])
  ∧ (exploreApi None = Rejected e →
     failed_warning ∈ status props (refresh exploreApi toolsFirst v))
  ∧ (failed_warning
     ∈ status props
         (optionsSettled
            (AsyncFn.lastCallId (uniqueTagsAndLifecycle (effect v)))
            (Rejected e) (effect v))
     ∧ card_grids
         (status props
            (optionsSettled
               (AsyncFn.lastCallId (uniqueTagsAndLifecycle (effect v)))
               (Rejected e) (effect v)))
       = card_grids (status props v))
  ∧ (exploreApi None = Rejected e →
     exploreApi (filtered_request (filteredTags v) (filteredLifecycle v))
     = Fulfilled (Some {| Response.tools := Some ts |}) →
     failed_warning ∈ status props (refresh exploreApi toolsFirst v)
     ∧ card_grids (status props (refresh exploreApi toolsFirst v))
       = [Body ts (Props.objectFit props)]).
Proof.
  intros Hm.
  pose proof (refresh_tools exploreApi toolsFirst v Hm) as Hst.
  unfold result_of in Hst. rewrite fetchTools_run in Hst. cbn [snd] in Hst.
  pose proof (refresh_options exploreApi toolsFirst v Hm) as Hso.
  unfold result_of in Hso. rewrite fetchTagsAndLifeCycles_run in Hso.
  cbn [snd] in Hso.
  pose proof (toolsSettled_latest v (Rejected e) Hm) as Hst'.
  pose proof (optionsSettled_latest v (Rejected e) Hm) as Hso'.
  split_and!.
  - apply failed_warning_shown.
  - intros Hrej. rewrite Hrej in Hst. split.
    + apply failed_warning_shown. left. by rewrite Hst.
    + rewrite card_grids_status. by rewrite Hst.
  - apply failed_warning_shown. left. by rewrite Hst'.
  - rewrite card_grids_status. by rewrite Hst'.
  - intros Hrej. rewrite Hrej in Hso.
    apply failed_warning_shown. right. by rewrite Hso.
  - apply failed_warning_shown. right. by rewrite Hso'.
  - rewrite !card_grids_status. unfold optionsSettled, effect.
    cbn [tools]. by rewrite (proj1 (call_keeps _)).
  - intros Hrej Hresp. rewrite Hrej in Hso. rewrite Hresp in Hst. split.
    + apply failed_warning_shown. right. by rewrite Hso.
    + rewrite card_grids_status. by rewrite Hst.
Qed.

Lemma failure_warning_witness :
  mounted Fixture.loaded = true
  ∧ card_grids (status Fixture.noProps Fixture.loaded) ≠ []
  ∧ (failed_warning
     ∈ status Fixture.noProps (refresh Fixture.failing true Fixture.loaded)
     ∧ card_grids
         (status Fixture.noProps
            (refresh Fixture.failing true Fixture.loaded))
       = [])
  ∧ (failed_warning
     ∈ status Fixture.noProps
         (optionsSettled 2 (Rejected {| message := "Failed to fetch" |})
            (effect Fixture.loaded))
     ∧ card_grids
         (status Fixture.noProps
            (optionsSettled 2 (Rejected {| message := "Failed to fetch" |})
               (effect Fixture.loaded)))
       = card_grids (status Fixture.noProps Fixture.loaded))
  ∧ (failed_warning
     ∈ status Fixture.noProps
         (refresh (rejecting_unfiltered Fixture.defaultTools) false
            Fixture.loaded)
     ∧ card_grids
         (status Fixture.noProps
            (refresh (rejecting_unfiltered Fixture.defaultTools) false
               Fixture.loaded))
       = [Body Fixture.defaultTools None]).
Proof.
  destruct (failure_warning Fixture.failing Fixture.noProps true
              Fixture.loaded {| message := "Failed to fetch" |} []
              eq_refl)
    as (_ & Hfiltered & _ & _ & Hoptions & _).
  destruct (failure_warning (rejecting_unfiltered Fixture.defaultTools)
              Fixture.noProps false Fixture.loaded
              {| message := "Failed to fetch" |} Fixture.defaultTools
              eq_refl)
    as (_ & _ & _ & _ & _ & Hbeside).
  split; [reflexivity|]. split; [vm_compute; discriminate|].
  exact (conj (Hfiltered eq_refl)
           (conj Hoptions (Hbeside eq_refl eq_refl))).
Defined.

(** C9: when the client resolves the unfiltered request with a nullish
    answer, or with an answer that has no [tools] field,
    [fetchTagsAndLifeCycles] resolves with empty tags and empty lifecycles,
    and the options loader ends in its succeeded state, without an error. *)
Theorem fetchTagsAndLifeCycles_nullish (exploreApi : ExploreApi)
    (response : option GetExploreToolsResponse) (toolsFirst : bool)
    (v : View) :
  mounted v = true →
  exploreApi None = Fulfilled response →
  response ≫= Response.tools = None →
  result_of exploreApi fetchTagsAndLifeCycles = Fulfilled no_options
  ∧ AsyncFn.state (uniqueTagsAndLifecycle (refresh exploreApi toolsFirst v))
    = {| AsyncFn.loading := false; AsyncFn.error := None;
         AsyncFn.value := Some no_options |}.
Proof.
  intros Hm Hresp Hnone.
  assert (Hres : result_of exploreApi fetchTagsAndLifeCycles
                 = Fulfilled no_options).
  { unfold result_of. by rewrite fetchTagsAndLifeCycles_run, Hresp, Hnone. }
  split; [done|].
  by rewrite refresh_options, Hres.
Qed.

Lemma fetchTagsAndLifeCycles_nullish_witness :
  result_of Fixture.nullish fetchTagsAndLifeCycles = Fulfilled no_options
  ∧ result_of Fixture.noToolsField fetchTagsAndLifeCycles
    = Fulfilled no_options.
Proof.
  split.
  - exact (proj1 (fetchTagsAndLifeCycles_nullish Fixture.nullish None true
                    Fixture.loaded eq_refl eq_refl eq_refl)).
  - exact (proj1 (fetchTagsAndLifeCycles_nullish Fixture.noToolsField
                    (Some {| Response.tools := None |}) true
                    Fixture.loaded eq_refl eq_refl eq_refl)).
Defined.

(** C10: when the client resolves the filtered request with a nullish
    answer, [fetchTools] resolves with [undefined]; the tools loader then
    holds neither a value nor an error, and the view renders neither the
    [No tools found] warning nor a card grid, and renders the failure
    warning only if the options loader holds an error. *)
Theorem fetchTools_nullish (exploreApi : ExploreApi) (props : Props.t)
    (toolsFirst : bool) (v : View) :
  mounted v = true →
  exploreApi (filtered_request (filteredTags v) (filteredLifecycle v))
  = Fulfilled None →
  result_of exploreApi (fetchTools (filteredTags v) (filteredLifecycle v))
  = Fulfilled None
  ∧ AsyncFn.state (tools (refresh exploreApi toolsFirst v))
    = {| AsyncFn.loading := false; AsyncFn.error := None;
         AsyncFn.value := None |}
  ∧ (no_tools_warning ∉ status props (refresh exploreApi toolsFirst v))
  ∧ card_grids (status props (refresh exploreApi toolsFirst v)) = []
  ∧ (failed_warning ∈ status props (refresh exploreApi toolsFirst v)
     ↔ is_Some (AsyncFn.error
                  (AsyncFn.state
                     (uniqueTagsAndLifecycle
                        (refresh exploreApi toolsFirst v))))).
Proof.
  intros Hm Hresp.
  assert (Hres : result_of exploreApi
                   (fetchTools (filteredTags v) (filteredLifecycle v))
                 = Fulfilled None).
  { unfold result_of. by rewrite fetchTools_run, Hresp. }
  pose proof (refresh_tools exploreApi toolsFirst v Hm) as Hst.
  rewrite Hres in Hst. cbn in Hst.
  split_and!.
  - done.
  - done.
  - rewrite no_tools_warning_shown, Hst. discriminate.
  - rewrite card_grids_status. by rewrite Hst.
  - rewrite failed_warning_shown, Hst. cbn.
    split; [|tauto]. intros [[? [=]]|]; done.
Qed.

Lemma fetchTools_nullish_witness :
  mounted Fixture.loaded = true
  ∧ (no_tools_warning
     ∉ status Fixture.noProps (refresh Fixture.nullish true Fixture.loaded))
  ∧ card_grids
      (status Fixture.noProps (refresh Fixture.nullish true Fixture.loaded))
    = [].
Proof.
  destruct (fetchTools_nullish Fixture.nullish Fixture.noProps true
              Fixture.loaded eq_refl eq_refl)
    as (_ & _ & Hno & Hgrid & _).
  split; [reflexivity|]. exact (conj Hno Hgrid).
Defined.

(** ** The scenarios of the test suite *)

(** The tags filter offers the tags of the catalog in first-seen order, the
    lifecycle filter the one lifecycle in use. *)
Example shows_filter_options :
  tagOptions Fixture.loaded
  = ["web"; "seo"; "accessibility"; "performance"; "standards"; "landscape"]
  ∧ lifecycleOptions
      (refresh Fixture.defaultLifecycleFilterFunction true
         (mount (Fixture.at_query [])))
    = ["experimental"]
  ∧ card_titles (status Fixture.noProps Fixture.loaded)
    = ["Lighthouse"; "Tech Radar"].
Proof. vm_compute. done. Qed.

(** Choosing the tag [landscape] rewrites the URL to [?tags=landscape],
    asks the client for that tag and for the unfiltered list, and leaves
    only the second tool on display; the options offered stay the full
    ones. *)
Example filters_by_tags :
  searchParams (step Fixture.loaded (TagsChange ["landscape"]))
  = [("tags", "landscape")]
  ∧ effect_requests Fixture.defaultTagFilterFunction
      (handleTagsChange ["landscape"] Fixture.loaded)
    = [filtered_request ["landscape"] []; None]
  ∧ card_titles
      (status Fixture.noProps
         (refresh Fixture.defaultTagFilterFunction false
            (handleTagsChange ["landscape"] Fixture.loaded)))
    = ["Tech Radar"]
  ∧ tagOptions
      (refresh Fixture.defaultTagFilterFunction false
         (handleTagsChange ["landscape"] Fixture.loaded))
    = tagOptions Fixture.loaded.
Proof. vm_compute. done. Qed.

(** A URL seeded with [?lifecycle=experimental] selects that lifecycle at
    the first render, and the first fetch already carries it. *)
Example uses_query_param :
  filteredLifecycle (mount (Fixture.at_query [("lifecycle", "experimental")]))
  = ["experimental"]
  ∧ effect_requests Fixture.defaultLifecycleFilterFunction
      Fixture.at_experimental
    = [filtered_request [] ["experimental"]; None]
  ∧ card_titles
      (status Fixture.noProps
         (refresh Fixture.defaultLifecycleFilterFunction true
            Fixture.at_experimental))
    = ["Tech Radar"].
Proof. vm_compute. done. Qed.

(** An answer to a call that is no longer the latest one is dropped: after
    two changes of the selection, the answer to the first request does not
    reach the state. *)
Example stale_answer_dropped :
  step (step (step Fixture.loaded (TagsChange ["web"]))
          (TagsChange ["landscape"]))
    (ToolsSettled 2 (Fulfilled (Some [])))
  = step (step Fixture.loaded (TagsChange ["web"])) (TagsChange ["landscape"]).
Proof. vm_compute. done. Qed.

(** ** Further properties: what is rendered *)

Lemma fmap_imap_cards {B} (g : ToolCard → B) (h : ExploreTool → B)
    (objectFit : option ObjectFit) (tools : list ExploreTool) :
  (∀ i tool,
     g {| key := i; card := tool; card_objectFit := objectFit |} = h tool) →
  g <$> imap (λ index tool,
                {| key := index; card := tool; card_objectFit := objectFit |})
          tools
  = h <$> tools.
Proof.
  intros Hgh. apply list_eq. intros j.
  rewrite !list_lookup_fmap, list_lookup_imap.
  destruct (tools !! j); cbn; [|done]. by rewrite Hgh.
Qed.

(** X1: [Body] renders one card per tool, in the order of the tool list;
    the card at position [i] is keyed [i], shows the tool at position [i]
    and carries the [objectFit] handed to [Body]. *)
Theorem Body_cards (tools : list ExploreTool) (objectFit : option ObjectFit)
    (i : nat) :
  length (grid_children (Body tools objectFit)) = length tools
  ∧ grid_children (Body tools objectFit) !! i
    = (λ tool, {| key := i; card := tool; card_objectFit := objectFit |})
      <$> tools !! i
  ∧ card <$> grid_children (Body tools objectFit) = tools.
Proof.
  unfold Body. cbn [grid_children]. split_and!.
  - apply length_imap.
  - apply list_lookup_imap.
  - rewrite (fmap_imap_cards card id) by done. apply list_fmap_id.
Qed.

Section Rendering.

Variable props : Props.t.
Implicit Types v : View.

Lemma progress_shown v :
  Progress ∈ status props v
  ↔ AsyncFn.loading (AsyncFn.state (tools v)) = true
    ∨ AsyncFn.loading (AsyncFn.state (uniqueTagsAndLifecycle v)) = true.
Proof.
  unfold status, jsx_and, Body.
  destruct (AsyncFn.loading (AsyncFn.state (tools v))),
    (AsyncFn.loading (AsyncFn.state (uniqueTagsAndLifecycle v)));
    cbn [orb].
  1-3: split; [tauto|intros _]; apply elem_of_cons; by left.
  split; [|intros [|]; done]. intros Hin. exfalso.
  destruct (_ || _), (AsyncFn.value (AsyncFn.state (tools v))) as [[|t ts]|];
    cbn in Hin; set_solver.
Qed.

(** The part of the status that does not depend on the loading flags. *)
Lemma without_progress_status v :
  without_progress (status props v)
  = jsx_and (truthy (AsyncFn.error (AsyncFn.state (tools v)))
             || truthy (AsyncFn.error
                          (AsyncFn.state (uniqueTagsAndLifecycle v))))
      failed_warning
    ++ match AsyncFn.value (AsyncFn.state (tools v)) with
       | Some value =>
           jsx_and (Nat.eqb (length value) 0) no_tools_warning
           ++ [Body value (Props.objectFit props)]
       | None => []
       end.
Proof.
  unfold status, without_progress, jsx_and, Body.
  by destruct (_ || _), (_ || _),
    (AsyncFn.value (AsyncFn.state (tools v))) as [[|t ts]|].
Qed.

Lemma effect_status v :
  status props (effect v) = Progress :: without_progress (status props v).
Proof.
  rewrite without_progress_status. unfold status, effect.
  cbn [tools uniqueTagsAndLifecycle].
  rewrite call_loading, !(proj1 (call_keeps _)), !(proj2 (call_keeps _)).
  cbn [orb jsx_and app]. unfold failed_warning, no_tools_warning.
  by destruct (AsyncFn.value (AsyncFn.state (tools v))).
Qed.

Lemma card_titles_status v :
  card_titles (status props v)
  = title <$> default [] (AsyncFn.value (AsyncFn.state (tools v))).
Proof.
  assert (Hone : ∀ ts o, card_titles [Body ts o] = title <$> ts).
  { intros ts o. unfold card_titles, Body. cbn [mbind list_bind app].
    rewrite app_nil_r. by apply fmap_imap_cards. }
  assert (Hnone : ∀ c e, is_card_grid e = false → card_titles (jsx_and c e) = []).
  { intros [] [] He; done. }
  unfold status, card_titles. rewrite !bind_app. fold card_titles.
  rewrite !Hnone by done.
  destruct (AsyncFn.value (AsyncFn.state (tools v))) as [ts|]; [|done].
  rewrite Hnone by done. apply Hone.
Qed.

End Rendering.

(** X2: the progress bar is rendered exactly when one of the two loaders
    is loading. A run of the effect brings it up; it stays while only one
    of the two fetches has settled, and is gone once both have. *)
Theorem progress_indicator (exploreApi : ExploreApi) (props : Props.t)
    (toolsFirst : bool) (v : View)
    (rt : Settled (option (list ExploreTool))) (ro : Settled Options.t) :
  mounted v = true →
  (Progress ∈ status props v
   ↔ AsyncFn.loading (AsyncFn.state (tools v)) = true
     ∨ AsyncFn.loading (AsyncFn.state (uniqueTagsAndLifecycle v)) = true)
  ∧ Progress ∈ status props (effect v)
  ∧ Progress
    ∈ status props
        (toolsSettled (AsyncFn.lastCallId (tools (effect v))) rt (effect v))
  ∧ Progress
    ∈ status props
        (optionsSettled
           (AsyncFn.lastCallId (uniqueTagsAndLifecycle (effect v))) ro
           (effect v))
  ∧ (Progress ∉ status props (refresh exploreApi toolsFirst v)).
Proof.
  intros Hm. split_and!.
  - apply progress_shown.
  - rewrite effect_status. apply elem_of_cons. by left.
  - apply progress_shown. right. unfold toolsSettled, effect.
    cbn [uniqueTagsAndLifecycle]. apply call_loading.
  - apply progress_shown. left. unfold optionsSettled, effect.
    cbn [tools]. apply call_loading.
  - rewrite progress_shown, refresh_tools, refresh_options by done.
    destruct (result_of exploreApi (fetchTools _ _)),
      (result_of exploreApi fetchTagsAndLifeCycles); cbn; intros [|]; done.
Qed.

Lemma progress_indicator_witness :
  mounted Fixture.loaded = true
  ∧ Progress ∈ status Fixture.noProps (effect Fixture.loaded)
  ∧ (Progress
     ∉ status Fixture.noProps
         (refresh Fixture.defaultTagFilterFunction false Fixture.loaded)).
Proof.
  destruct (progress_indicator Fixture.defaultTagFilterFunction
              Fixture.noProps false Fixture.loaded (Fulfilled None)
              (Fulfilled no_options) eq_refl)
    as (_ & Hup & _ & _ & Hgone).
  split; [reflexivity|]. exact (conj Hup Hgone).
Defined.

(** X3: a change of either selection puts the progress bar first and
    leaves every warning and card that was on display where it was: the
    last value and the last error of both loaders stay until the new
    fetches settle. The options offered by the filter widgets stay too. *)
Theorem pending_keeps_display (props : Props.t) (v : View)
    (value : list string) :
  status props (step v (TagsChange value))
  = Progress :: without_progress (status props v)
  ∧ status props (step v (LifecycleChange value))
    = Progress :: without_progress (status props v)
  ∧ filters props (step v (TagsChange value)) = filters props v
  ∧ filters props (step v (LifecycleChange value)) = filters props v.
Proof.
  assert (Hopt : ∀ w, tagOptions (effect w) = tagOptions w
                      ∧ lifecycleOptions (effect w) = lifecycleOptions w).
  { intros w. unfold tagOptions, lifecycleOptions, effect.
    cbn [uniqueTagsAndLifecycle]. by rewrite (proj1 (call_keeps _)). }
  cbn [step]. rewrite !effect_status. split_and!; try done.
  - unfold filters.
    by rewrite (proj1 (Hopt _)), (proj2 (Hopt _)).
  - unfold filters.
    by rewrite (proj1 (Hopt _)), (proj2 (Hopt _)).
Qed.

(** X4: the status part holds, in this order and each at most once, the
    progress bar, the failure warning, the [No tools found] warning and one
    card grid; nothing else is ever rendered there. *)
Theorem status_layout (props : Props.t) (v : View) :
  status props v
  `sublist_of` [Progress; failed_warning; no_tools_warning;
                Body (default [] (AsyncFn.value (AsyncFn.state (tools v))))
                  (Props.objectFit props)].
Proof.
  unfold status, jsx_and, failed_warning, no_tools_warning.
  destruct (_ || _), (_ || _),
    (AsyncFn.value (AsyncFn.state (tools v))) as [ts|];
    cbn [app default]; try destruct (Nat.eqb (length ts) 0);
    cbn [app]; repeat first [apply sublist_nil_l
                            | apply sublist_skip
                            | apply sublist_cons].
Qed.

(** X5: the [No tools found] warning and the empty card grid come
    together: either is rendered exactly when the tools loader holds an
    empty list, so a grid that shows a card never has the warning beside
    it. *)
Theorem empty_grid_with_warning (props : Props.t) (v : View) :
  (no_tools_warning ∈ status props v
   ↔ AsyncFn.value (AsyncFn.state (tools v)) = Some [])
  ∧ (ItemCardGrid [] ∈ status props v
     ↔ AsyncFn.value (AsyncFn.state (tools v)) = Some [])
  ∧ (no_tools_warning ∈ status props v ↔ card_grids (status props v)
                                          = [ItemCardGrid []]).
Proof.
  split_and!.
  - apply no_tools_warning_shown.
  - unfold status, jsx_and, Body.
    destruct (_ || _), (_ || _),
      (AsyncFn.value (AsyncFn.state (tools v))) as [[|t ts]|];
      cbn; set_solver.
  - rewrite no_tools_warning_shown, card_grids_status.
    destruct (AsyncFn.value (AsyncFn.state (tools v))) as [[|t ts]|];
      cbn; split; intros [=]; done.
Qed.

(** X6: the filter widgets are off by default. Nothing of them is rendered
    unless a flag is set to true; the tags widget is rendered exactly when
    [showTagsFilter] is true, the lifecycle widget exactly when
    [showLifecycleFilter] is true, the tags widget first. *)
Theorem filters_off_by_default (props : Props.t) (v : View) :
  (filters props v = []
   ↔ Props.showTagsFilter props ≠ Some true
     ∧ Props.showLifecycleFilter props ≠ Some true)
  ∧ (Autocomplete "tags-filter" (tagOptions v) ∈ filters props v
     ↔ Props.showTagsFilter props = Some true)
  ∧ (Autocomplete "lifecycle-filter" (lifecycleOptions v) ∈ filters props v
     ↔ Props.showLifecycleFilter props = Some true)
  ∧ filters props v
    `sublist_of` [Autocomplete "tags-filter" (tagOptions v);
                  Autocomplete "lifecycle-filter" (lifecycleOptions v)].
Proof.
  unfold filters, jsx_and.
  destruct (Props.showTagsFilter props) as [[|]|],
    (Props.showLifecycleFilter props) as [[|]|]; cbn.
  all: split_and!;
    try (repeat first [apply sublist_nil_l | apply sublist_skip
                      | apply sublist_cons]);
    try (split; [intros; split; intros [=] | intros [H1 H2]; congruence]);
    try (split; [intros [=] | intros [H1 H2]; congruence]);
    try set_solver.
Qed.

(** ** Further properties: the component over time *)

Section Steps.

Implicit Types (v : View) (ev : Event) (evs : list Event).

Lemma settle_lastCallId {V} m callId (r : Settled (option V)) (h : AsyncFn.t V) :
  AsyncFn.lastCallId (AsyncFn.settle m callId r h) = AsyncFn.lastCallId h.
Proof. unfold AsyncFn.settle. by destruct (_ && _). Qed.

Lemma step_lastCallId v ev :
  AsyncFn.lastCallId (tools (step v ev))
  = AsyncFn.lastCallId (tools v) + changes [ev]
  ∧ AsyncFn.lastCallId (uniqueTagsAndLifecycle (step v ev))
    = AsyncFn.lastCallId (uniqueTagsAndLifecycle v) + changes [ev].
Proof.
  destruct ev; cbn [step changes effect toolsSettled optionsSettled
                    handleTagsChange handleLifecycleChange tools
                    uniqueTagsAndLifecycle AsyncFn.call fst
                    AsyncFn.lastCallId];
    rewrite ?settle_lastCallId; lia.
Qed.

Lemma steps_lastCallId evs : ∀ v,
  AsyncFn.lastCallId (tools (foldl step v evs))
  = AsyncFn.lastCallId (tools v) + changes evs
  ∧ AsyncFn.lastCallId (uniqueTagsAndLifecycle (foldl step v evs))
    = AsyncFn.lastCallId (uniqueTagsAndLifecycle v) + changes evs.
Proof.
  induction evs as [|ev evs IH]; intros v; cbn [foldl].
  - cbn. lia.
  - destruct (IH (step v ev)) as [-> ->].
    destruct (step_lastCallId v ev) as [-> ->].
    destruct ev; cbn [changes]; lia.
Qed.

Lemma step_mounted v ev : mounted (step v ev) = mounted v.
Proof. by destruct ev. Qed.

Lemma step_history v ev :
  URL.back (history (step v ev)) = URL.back (history v)
  ∧ URL.forward (history (step v ev)) = URL.forward (history v).
Proof. by destruct ev. Qed.

Lemma one_outcome_call {V} (h : AsyncFn.t V) :
  one_outcome h → one_outcome (AsyncFn.call h).1.
Proof.
  unfold one_outcome. by rewrite (proj1 (call_keeps h)), (proj2 (call_keeps h)).
Qed.

Lemma one_outcome_settle {V} m callId (r : Settled (option V))
    (h : AsyncFn.t V) :
  one_outcome h → one_outcome (AsyncFn.settle m callId r h).
Proof.
  unfold one_outcome, AsyncFn.settle.
  destruct (_ && _); [|done]. intros _. destruct r; cbn; tauto.
Qed.

Lemma one_outcome_step v ev :
  one_outcome (tools v) ∧ one_outcome (uniqueTagsAndLifecycle v) →
  one_outcome (tools (step v ev))
  ∧ one_outcome (uniqueTagsAndLifecycle (step v ev)).
Proof.
  intros [Ht Ho].
  destruct ev; cbn [step effect toolsSettled optionsSettled
                    handleTagsChange handleLifecycleChange tools
                    uniqueTagsAndLifecycle];
    auto using one_outcome_call, one_outcome_settle.
Qed.

End Steps.

(** X7: of two fetches started one after the other, the later one decides
    what the tools loader holds, whichever of the two answers arrives
    first: the answer to the earlier call is dropped. *)
Theorem latest_call_wins (v : View) (a b : list string)
    (r1 r2 : Settled (option (list ExploreTool))) :
  mounted v = true →
  AsyncFn.state
    (tools
       (foldl step (step (step v (TagsChange a)) (LifecycleChange b))
          [ToolsSettled
             (AsyncFn.lastCallId (tools (step v (TagsChange a)))) r1;
           ToolsSettled
             (AsyncFn.lastCallId
                (tools (step (step v (TagsChange a)) (LifecycleChange b))))
             r2]))
  = AsyncFn.settled_state r2
  ∧ AsyncFn.state
      (tools
         (foldl step (step (step v (TagsChange a)) (LifecycleChange b))
            [ToolsSettled
               (AsyncFn.lastCallId
                  (tools (step (step v (TagsChange a)) (LifecycleChange b))))
               r2;
             ToolsSettled
               (AsyncFn.lastCallId (tools (step v (TagsChange a)))) r1]))
    = AsyncFn.settled_state r2.
Proof.
  intros Hm.
  cbn [foldl step effect toolsSettled handleTagsChange handleLifecycleChange
       tools mounted AsyncFn.call fst AsyncFn.lastCallId].
  rewrite Hm. unfold AsyncFn.settle. cbn [AsyncFn.lastCallId andb].
  rewrite (bool_decide_false (S _ = S (S _))) by lia.
  cbn [AsyncFn.lastCallId].
  rewrite !bool_decide_true by done. cbn [AsyncFn.state AsyncFn.lastCallId].
  rewrite (bool_decide_false (S _ = S (S _))) by lia.
  done.
Qed.

Lemma latest_call_wins_witness :
  mounted Fixture.loaded = true
  ∧ AsyncFn.state
      (tools
         (foldl step
            (step (step Fixture.loaded (TagsChange ["web"]))
               (LifecycleChange ["experimental"]))
            [ToolsSettled 3 (Fulfilled (Some Fixture.defaultTools));
             ToolsSettled 2 (Fulfilled (Some []))]))
    = AsyncFn.settled_state (Fulfilled (Some Fixture.defaultTools)).
Proof.
  split; [reflexivity|].
  exact (proj2 (latest_call_wins Fixture.loaded ["web"] ["experimental"]
                  (Fulfilled (Some []))
                  (Fulfilled (Some Fixture.defaultTools)) eq_refl)).
Defined.

(** X8: the two loaders are always triggered together. After mounting and
    any sequence of events, both hooks have been called the same number of
    times: once for the mount and once per change of a selection; answers
    from the client trigger nothing. *)
Theorem loaders_called_together (h : URL.History) (evs : list Event) :
  AsyncFn.lastCallId (tools (foldl step (mount h) evs)) = S (changes evs)
  ∧ AsyncFn.lastCallId (uniqueTagsAndLifecycle (foldl step (mount h) evs))
    = S (changes evs).
Proof.
  destruct (steps_lastCallId evs (mount h)) as [-> ->]. done.
Qed.

(** X9: the component never adds a history entry and never touches the
    entries around the current one: after any sequence of events the
    entries before and after the current one, and so their number, are
    what they were. *)
Theorem history_never_grows (v : View) (evs : list Event) :
  URL.back (history (foldl step v evs)) = URL.back (history v)
  ∧ URL.forward (history (foldl step v evs)) = URL.forward (history v)
  ∧ URL.entries (history (foldl step v evs)) = URL.entries (history v).
Proof.
  revert v. induction evs as [|ev evs IH]; intros v; cbn [foldl]; [done|].
  destruct (IH (step v ev)) as (Hb & Hf & _).
  destruct (step_history v ev) as [Hb' Hf'].
  unfold URL.entries. rewrite Hb, Hf, Hb', Hf'. done.
Qed.

(** X10: after the tags and then the lifecycles have been changed, the
    component holds both selections but the URL holds the lifecycles only,
    so a first render from that URL starts with no tag selected; changed in
    the other order, it is the lifecycle selection that a reload loses.
    The selection changed last is always read back as it was set. *)
Theorem reload_restores_last_change (v : View) (t l : list string) :
  filteredTags (handleLifecycleChange l (handleTagsChange t v)) = t
  ∧ filteredLifecycle (handleLifecycleChange l (handleTagsChange t v)) = l
  ∧ initialize
      (searchParams (handleLifecycleChange l (handleTagsChange t v)))
    = ([], l)
  ∧ filteredTags (handleTagsChange t (handleLifecycleChange l v)) = t
  ∧ filteredLifecycle (handleTagsChange t (handleLifecycleChange l v)) = l
  ∧ initialize
      (searchParams (handleTagsChange t (handleLifecycleChange l v)))
    = (t, []).
Proof.
  unfold initialize.
  rewrite searchParams_handleTagsChange, searchParams_handleLifecycleChange,
    !getAll_single.
  split_and!; done.
Qed.

(** X11: the two loaders do not interfere. Over any sequence of events,
    what the tools loader ends with is what it ends with when the answers
    to the options fetch are left out of the sequence, and what the options
    loader ends with is what it ends with when the answers to the tools
    fetch are left out. *)
Theorem loaders_do_not_interfere (v : View) (evs : list Event) :
  tools (foldl step v evs) = tools (foldl step v (tools_events evs))
  ∧ uniqueTagsAndLifecycle (foldl step v evs)
    = uniqueTagsAndLifecycle (foldl step v (options_events evs)).
Proof.
  split.
  - assert (Hgen : ∀ evs v w,
              mounted v = mounted w → tools v = tools w →
              tools (foldl step v evs)
              = tools (foldl step w (tools_events evs))).
    { clear. induction evs as [|ev evs IH]; intros v w Hm Ht; [done|].
      destruct ev; cbn [tools_events List.filter foldl];
        apply IH; rewrite ?step_mounted; try done;
        cbn [step effect toolsSettled optionsSettled handleTagsChange
             handleLifecycleChange tools mounted];
        by rewrite ?Hm, ?Ht. }
    by apply Hgen.
  - assert (Hgen : ∀ evs v w,
              mounted v = mounted w →
              uniqueTagsAndLifecycle v = uniqueTagsAndLifecycle w →
              uniqueTagsAndLifecycle (foldl step v evs)
              = uniqueTagsAndLifecycle (foldl step w (options_events evs))).
    { clear. induction evs as [|ev evs IH]; intros v w Hm Ho; [done|].
      destruct ev; cbn [options_events List.filter foldl];
        apply IH; rewrite ?step_mounted; try done;
        cbn [step effect toolsSettled optionsSettled handleTagsChange
             handleLifecycleChange uniqueTagsAndLifecycle mounted];
        by rewrite ?Hm, ?Ho. }
    by apply Hgen.
Qed.

(** X12: in every state the component reaches from mounting, whatever the
    selections chosen and the answers received, neither loader holds an
    error together with a value; hence a failure of the tools loader is
    never on display beside a card grid. *)
Theorem reachable_one_outcome (props : Props.t) (h : URL.History)
    (evs : list Event) :
  mounted (foldl step (mount h) evs) = true
  ∧ one_outcome (tools (foldl step (mount h) evs))
  ∧ one_outcome (uniqueTagsAndLifecycle (foldl step (mount h) evs))
  ∧ (AsyncFn.error (AsyncFn.state (tools (foldl step (mount h) evs))) = None
     ∨ card_grids (status props (foldl step (mount h) evs)) = []).
Proof.
  assert (Hinv : ∀ evs v,
            mounted v = true ∧ one_outcome (tools v)
            ∧ one_outcome (uniqueTagsAndLifecycle v) →
            mounted (foldl step v evs) = true
            ∧ one_outcome (tools (foldl step v evs))
            ∧ one_outcome (uniqueTagsAndLifecycle (foldl step v evs))).
  { clear evs. induction evs as [|ev evs IH]; intros v Hv; [done|].
    cbn [foldl]. apply IH. destruct Hv as (Hm & Ht & Ho).
    rewrite step_mounted. split; [done|].
    by apply one_outcome_step. }
  destruct (Hinv evs (mount h)) as (Hm & Ht & Ho).
  { split; [done|]. split; left; done. }
  split_and!; try done.
  destruct Ht as [Ht|Ht]; [by left|right].
  rewrite card_grids_status. by rewrite Ht.
Qed.

(** ** Further properties: options and results on display *)

Lemma filters_elements (props : Props.t) (v : View) :
  filters props v
  = jsx_and (default false (Props.showTagsFilter props))
      (Autocomplete "tags-filter" (tagOptions v))
    ++ jsx_and (default false (Props.showLifecycleFilter props))
         (Autocomplete "lifecycle-filter" (lifecycleOptions v)).
Proof.
  unfold filters.
  by destruct (default false (Props.showTagsFilter props)),
    (default false (Props.showLifecycleFilter props)).
Qed.

Lemma first_seen_NoDup (l : list string) : NoDup l → first_seen l = l.
Proof.
  induction l as [|x l IH]; [done|].
  rewrite NoDup_cons. intros [Hx Hl]. cbn [first_seen]. rewrite IH by done.
  f_equal. clear IH Hl. induction l as [|y l IH]; [done|].
  rewrite not_elem_of_cons in Hx. destruct Hx as [Hxy Hx].
  rewrite filter_cons_True by done. by rewrite IH.
Qed.

Lemma all_tags_app (ts1 ts2 : list ExploreTool) :
  all_tags (ts1 ++ ts2) = all_tags ts1 ++ all_tags ts2.
Proof. apply bind_app. Qed.

Lemma all_lifecycles_app (ts1 ts2 : list ExploreTool) :
  all_lifecycles (ts1 ++ ts2) = all_lifecycles ts1 ++ all_lifecycles ts2.
Proof. apply omap_app. Qed.

(** X13: what the filter widgets offer after a refresh depends on the
    client alone: not on the selections, not on what was on display before,
    not on the order in which the two fetches settle. Narrowing the tool
    list never narrows the options. *)
Theorem options_ignore_selection (exploreApi : ExploreApi) (props : Props.t)
    (b1 b2 : bool) (v1 v2 : View) :
  mounted v1 = true →
  mounted v2 = true →
  tagOptions (refresh exploreApi b1 v1) = tagOptions (refresh exploreApi b2 v2)
  ∧ lifecycleOptions (refresh exploreApi b1 v1)
    = lifecycleOptions (refresh exploreApi b2 v2)
  ∧ filters props (refresh exploreApi b1 v1)
    = filters props (refresh exploreApi b2 v2).
Proof.
  intros Hm1 Hm2.
  assert (Ht : tagOptions (refresh exploreApi b1 v1)
               = tagOptions (refresh exploreApi b2 v2)).
  { unfold tagOptions. by rewrite !refresh_options. }
  assert (Hl : lifecycleOptions (refresh exploreApi b1 v1)
               = lifecycleOptions (refresh exploreApi b2 v2)).
  { unfold lifecycleOptions. by rewrite !refresh_options. }
  split_and!; try done.
  by rewrite !filters_elements, Ht, Hl.
Qed.

Lemma options_ignore_selection_witness :
  tagOptions
    (refresh Fixture.defaultTagFilterFunction true
       (handleTagsChange ["landscape"] Fixture.loaded))
  = tagOptions
      (refresh Fixture.defaultTagFilterFunction false
         (first_render (Fixture.at_query []))).
Proof.
  exact (proj1 (options_ignore_selection Fixture.defaultTagFilterFunction
                  Fixture.noProps true false
                  (handleTagsChange ["landscape"] Fixture.loaded)
                  (first_render (Fixture.at_query [])) eq_refl eq_refl)).
Defined.

(** X14: once the catalog has answered the unfiltered request with a tool
    list, the tags widget, when shown, offers the tags of that list reduced
    to first occurrences, and the lifecycle widget, when shown, the
    lifecycles reduced the same way; nothing else is rendered among the
    filters. *)
Theorem widgets_offer_first_seen (exploreApi : ExploreApi) (props : Props.t)
    (toolsFirst : bool) (v : View) (allTools : list ExploreTool) :
  mounted v = true →
  exploreApi None = Fulfilled (Some {| Response.tools := Some allTools |}) →
  filters props (refresh exploreApi toolsFirst v)
  = jsx_and (default false (Props.showTagsFilter props))
      (Autocomplete "tags-filter" (first_seen (all_tags allTools)))
    ++ jsx_and (default false (Props.showLifecycleFilter props))
         (Autocomplete "lifecycle-filter"
            (first_seen (all_lifecycles allTools))).
Proof.
  intros Hm Hresp. rewrite filters_elements.
  unfold tagOptions, lifecycleOptions. rewrite refresh_options by done.
  unfold result_of. by rewrite fetchTagsAndLifeCycles_run, Hresp.
Qed.

Lemma widgets_offer_first_seen_witness :
  filters
    {| Props.title := None; Props.objectFit := None;
       Props.showTagsFilter := Some true;
       Props.showLifecycleFilter := Some true |}
    (refresh Fixture.defaultTagFilterFunction true
       (first_render (Fixture.at_query [])))
  = [Autocomplete "tags-filter"
       ["web"; "seo"; "accessibility"; "performance"; "standards";
        "landscape"];
     Autocomplete "lifecycle-filter" ["experimental"]].
Proof.
  exact (widgets_offer_first_seen Fixture.defaultTagFilterFunction
           {| Props.title := None; Props.objectFit := None;
              Props.showTagsFilter := Some true;
              Props.showLifecycleFilter := Some true |}
           true (first_render (Fixture.at_query [])) Fixture.defaultTools
           eq_refl eq_refl).
Defined.

(** X15: once the catalog has answered the filtered request with a tool
    list, exactly one card grid is rendered, showing these tools in the
    order of the answer, whatever was on display before; the [No tools
    found] warning is beside it exactly when the list is empty, and the
    failure warning exactly when the options loader failed. *)
Theorem loaded_tools_rendered (exploreApi : ExploreApi) (props : Props.t)
    (toolsFirst : bool) (v : View) (ts : list ExploreTool) :
  mounted v = true →
  exploreApi (filtered_request (filteredTags v) (filteredLifecycle v))
  = Fulfilled (Some {| Response.tools := Some ts |}) →
  card_grids (status props (refresh exploreApi toolsFirst v))
  = [Body ts (Props.objectFit props)]
  ∧ card_titles (status props (refresh exploreApi toolsFirst v))
    = title <$> ts
  ∧ (no_tools_warning ∈ status props (refresh exploreApi toolsFirst v)
     ↔ ts = [])
  ∧ (failed_warning ∈ status props (refresh exploreApi toolsFirst v)
     ↔ is_Some (AsyncFn.error
                  (AsyncFn.state
                     (uniqueTagsAndLifecycle
                        (refresh exploreApi toolsFirst v))))).
Proof.
  intros Hm Hresp.
  pose proof (refresh_tools exploreApi toolsFirst v Hm) as Hst.
  unfold result_of in Hst. rewrite fetchTools_run, Hresp in Hst.
  cbn in Hst. split_and!.
  - rewrite card_grids_status. by rewrite Hst.
  - rewrite card_titles_status. by rewrite Hst.
  - rewrite no_tools_warning_shown, Hst. cbn.
    split; [by intros [=]|by intros ->].
  - rewrite failed_warning_shown, Hst. cbn.
    split; [|tauto]. intros [[? [=]]|]; done.
Qed.

Lemma loaded_tools_rendered_witness :
  card_titles
    (status Fixture.noProps
       (refresh Fixture.defaultLifecycleFilterFunction true
          (handleTagsChange ["seo"] Fixture.loaded)))
  = ["Lighthouse"; "Tech Radar"].
Proof.
  exact (proj1 (proj2 (loaded_tools_rendered
                         Fixture.defaultLifecycleFilterFunction
                         Fixture.noProps true
                         (handleTagsChange ["seo"] Fixture.loaded)
                         Fixture.defaultTools eq_refl eq_refl))).
Defined.

(** X16: tools added at the end of the catalog only add options at the
    end: the options computed from a tool list are a prefix of the options
    computed from that list followed by more tools. *)
Theorem options_prefix_stable (api1 api2 : ExploreApi)
    (ts1 ts2 : list ExploreTool) :
  api1 None = Fulfilled (Some {| Response.tools := Some ts1 |}) →
  api2 None = Fulfilled (Some {| Response.tools := Some (ts1 ++ ts2) |}) →
  ∃ o1 o2 : Options.t,
    result_of api1 fetchTagsAndLifeCycles = Fulfilled o1
    ∧ result_of api2 fetchTagsAndLifeCycles = Fulfilled o2
    ∧ Options.tags o1 `prefix_of` Options.tags o2
    ∧ Options.lifecycles o1 `prefix_of` Options.lifecycles o2.
Proof.
  intros H1 H2. unfold result_of.
  rewrite !fetchTagsAndLifeCycles_run, H1, H2. cbn [mbind option_bind].
  eexists _, _. split; [done|]. split; [done|].
  cbn [Options.tags Options.lifecycles Response.tools snd].
  rewrite all_tags_app, all_lifecycles_app, !first_seen_app.
  split; eexists; done.
Qed.

Lemma options_prefix_stable_witness :
  result_of (answering (drop 1 Fixture.defaultTools)) fetchTagsAndLifeCycles
  = Fulfilled {| Options.tags := ["standards"; "landscape"];
                 Options.lifecycles := ["experimental"] |}
  ∧ result_of
      (answering (drop 1 Fixture.defaultTools ++ Fixture.defaultTools))
      fetchTagsAndLifeCycles
    = Fulfilled {| Options.tags := ["standards"; "landscape"; "web"; "seo";
                                    "accessibility"; "performance"];
                   Options.lifecycles := ["experimental"] |}
  ∧ ∃ o1 o2 : Options.t,
      result_of (answering (drop 1 Fixture.defaultTools))
        fetchTagsAndLifeCycles
      = Fulfilled o1
      ∧ result_of
          (answering (drop 1 Fixture.defaultTools ++ Fixture.defaultTools))
          fetchTagsAndLifeCycles
        = Fulfilled o2
      ∧ Options.tags o1 `prefix_of` Options.tags o2
      ∧ Options.lifecycles o1 `prefix_of` Options.lifecycles o2.
Proof.
  split; [reflexivity|]. split; [reflexivity|].
  exact (options_prefix_stable
           (answering (drop 1 Fixture.defaultTools))
           (answering (drop 1 Fixture.defaultTools ++ Fixture.defaultTools))
           (drop 1 Fixture.defaultTools) Fixture.defaultTools
           eq_refl eq_refl).
Defined.

(** X17: building a set from an array and reading it back gives the array
    itself exactly when the array has no duplicate; it never gives more
    elements than the array has, and doing it twice changes nothing. *)
Theorem Set_new_distinct (l : list string) :
  (Array_from (Set_new l) = l ↔ NoDup l)
  ∧ (length (Array_from (Set_new l)) ≤ length l)%nat
  ∧ Array_from (Set_new (Array_from (Set_new l))) = Array_from (Set_new l).
Proof.
  rewrite !Set_new_first_seen. split_and!.
  - split; [intros <-; apply NoDup_first_seen | apply first_seen_NoDup].
  - apply sublist_length, sublist_first_seen.
  - apply first_seen_NoDup, NoDup_first_seen.
Qed.

(** ** Further properties: the clients of the test suite *)

Lemma elem_of_array_filter {A} (p : A → bool) (a : list A) (x : A) :
  x ∈ Fixture.array_filter p a ↔ x ∈ a ∧ p x = true.
Proof.
  unfold Fixture.array_filter. rewrite !list_elem_of_In. apply filter_In.
Qed.

Lemma sublist_array_filter {A} (p : A → bool) (a : list A) :
  Fixture.array_filter p a `sublist_of` a.
Proof.
  unfold Fixture.array_filter. induction a as [|x a IH]; cbn; [done|].
  destruct (p x); [by apply sublist_skip | by apply sublist_cons].
Qed.

Lemma some_includes (wanted ts : list string) :
  Fixture.some (Fixture.includes wanted) ts = true
  ↔ ∃ tag, tag ∈ ts ∧ tag ∈ wanted.
Proof.
  unfold Fixture.some, Fixture.includes. rewrite existsb_exists.
  split; intros (tag & Hin & Hw); exists tag.
  - by rewrite list_elem_of_In, <- (bool_decide_eq_true (tag ∈ wanted)).
  - by rewrite <- list_elem_of_In, (bool_decide_eq_true (tag ∈ wanted)).
Qed.

(** X18: the tag-filtering client of the test suite. Asked for a set of
    tags of length above zero, it answers with the default tools that carry
    at least one of them, in their order; it ignores the lifecycle part of
    the filter;
    and it answers an empty set of tags as it answers no argument at all,
    which is the contract [fetchTools] relies on. *)
Theorem defaultTagFilterFunction_filters (wanted lc : list string)
    (tool : ExploreTool) :
  (0 < length wanted)%nat →
  (tool ∈ answer_tools
            (Fixture.defaultTagFilterFunction (filtered_request wanted lc))
   ↔ tool ∈ Fixture.defaultTools
     ∧ ∃ tag, tag ∈ default [] (tags tool) ∧ tag ∈ wanted)
  ∧ answer_tools
      (Fixture.defaultTagFilterFunction (filtered_request wanted lc))
    `sublist_of` Fixture.defaultTools
  ∧ Fixture.defaultTagFilterFunction (filtered_request wanted lc)
    = Fixture.defaultTagFilterFunction (filtered_request wanted [])
  ∧ Fixture.defaultTagFilterFunction (filtered_request [] lc)
    = Fixture.defaultTagFilterFunction None.
Proof.
  intros Hne. destruct wanted as [|w ws]; [cbn in Hne; lia|].
  unfold Fixture.defaultTagFilterFunction, filtered_request, answer_tools,
    tools_of.
  cbn [mbind option_bind Request.filter Request.tags length Nat.ltb Nat.leb
       Response.tools].
  split_and!; try done.
  - rewrite elem_of_array_filter. apply and_iff_compat_l.
    destruct (tags tool) as [ts|]; cbn [default].
    + apply some_includes.
    + split; [done|]. intros (tag & Hin & _). by apply elem_of_nil in Hin.
  - apply sublist_array_filter.
Qed.

Lemma defaultTagFilterFunction_filters_witness :
  title <$> answer_tools
              (Fixture.defaultTagFilterFunction
                 (filtered_request ["landscape"] ["production"]))
  = ["Tech Radar"]
  ∧ answer_tools
      (Fixture.defaultTagFilterFunction
         (filtered_request ["landscape"] ["production"]))
    `sublist_of` Fixture.defaultTools.
Proof.
  split; [reflexivity|].
  assert (Hne : (0 < length ["landscape"])%nat) by (cbn; lia).
  exact (proj1 (proj2 (defaultTagFilterFunction_filters ["landscape"]
                         ["production"]
                         (Build_ExploreTool "" "" "" None None None) Hne))).
Defined.

(** X19: the lifecycle-filtering client of the test suite. Asked for a
    non-empty set of lifecycles, it answers with the default tools whose
    lifecycle is one of them, tools without a lifecycle left out; it
    ignores the tags part of the filter; and it answers an empty set of
    lifecycles as it answers no argument at all. *)
Theorem defaultLifecycleFilterFunction_filters (tgs wanted : list string)
    (tool : ExploreTool) :
  (0 < length wanted)%nat →
  (tool ∈ answer_tools
            (Fixture.defaultLifecycleFilterFunction
               (filtered_request tgs wanted))
   ↔ tool ∈ Fixture.defaultTools
     ∧ ∃ l, lifecycle tool = Some l ∧ l ∈ wanted)
  ∧ answer_tools
      (Fixture.defaultLifecycleFilterFunction (filtered_request tgs wanted))
    `sublist_of` Fixture.defaultTools
  ∧ Fixture.defaultLifecycleFilterFunction (filtered_request tgs wanted)
    = Fixture.defaultLifecycleFilterFunction (filtered_request [] wanted)
  ∧ Fixture.defaultLifecycleFilterFunction (filtered_request tgs [])
    = Fixture.defaultLifecycleFilterFunction None.
Proof.
  intros Hne. destruct wanted as [|w ws]; [cbn in Hne; lia|].
  unfold Fixture.defaultLifecycleFilterFunction, filtered_request,
    answer_tools, tools_of.
  cbn [mbind option_bind Request.filter Request.lifecycle length Nat.ltb
       Nat.leb Response.tools].
  split_and!; try done.
  - rewrite elem_of_array_filter. apply and_iff_compat_l.
    destruct (lifecycle tool) as [l|].
    + unfold Fixture.includes. rewrite bool_decide_eq_true.
      split; [intros Hin; by exists l|by intros (l' & [= <-] & Hin)].
    + split; [done|]. by intros (l' & [=] & _).
  - apply sublist_array_filter.
Qed.

Lemma defaultLifecycleFilterFunction_filters_witness :
  title <$> answer_tools
              (Fixture.defaultLifecycleFilterFunction
                 (filtered_request ["web"] ["experimental"]))
  = ["Tech Radar"]
  ∧ answer_tools
      (Fixture.defaultLifecycleFilterFunction
         (filtered_request ["web"] ["experimental"]))
    `sublist_of` Fixture.defaultTools.
Proof.
  split; [reflexivity|].
  assert (Hne : (0 < length ["experimental"])%nat) by (cbn; lia).
  exact (proj1 (proj2 (defaultLifecycleFilterFunction_filters ["web"]
                         ["experimental"]
                         (Build_ExploreTool "" "" "" None None None) Hne))).
Defined.
